(** * DeviceKeyHelperRK: backup, check and restore of the device keys

    A shallow embedding of [src/DeviceKeyHelperRK.cpp].

    The header of the library is not part of the sources at hand, so what
    it declares is taken as a parameter of the development, gathered in
    the record [Platform]: the constants [DEVICE_KEYS_HELPER_SIZE],
    [DEVICE_KEYS_HELPER_OFFSET], [DATA_HEADER_MAGIC],
    [DIAG_ID_CLOUD_CONNECTION_ERROR_CODE] and [SYSTEM_VERSION], and the
    two [std::function] callbacks [load] and [save] that the application
    hands to the constructor.

    Integers are [Z], with the wrap-around written out where the code
    computes on a fixed width: the [uint16_t] accumulator of the checksum,
    the [int] counter of the handler and the [size_t] sum in the appender
    of the diagnostic query.  Byte buffers are [list Z]. *)

From Stdlib Require Import ZArith List Bool Lia.
From Stdlib Require Import Sorting.Permutation.
Import ListNotations.

Local Open Scope Z_scope.

(** ** Data *)

(** [DeviceKeyHelperSavedData]: the record the callbacks load and save. *)
Record DeviceKeyHelperSavedData : Type := mkSavedData {
  magic : Z;
  size : Z;
  sum : Z;
  keys : list Z
}.

(** [DeviceKeyHelper::CheckMode]. *)
Inductive CheckMode : Type :=
| CHECKMODE_CHECK_ONLY
| CHECKMODE_AUTOMATIC
| CHECKMODE_AUTOMATIC_NO_RESTART
| CHECKMODE_SAVE_CURRENT.

Definition CheckMode_eqb (a b : CheckMode) : bool :=
  match a, b with
  | CHECKMODE_CHECK_ONLY, CHECKMODE_CHECK_ONLY
  | CHECKMODE_AUTOMATIC, CHECKMODE_AUTOMATIC
  | CHECKMODE_AUTOMATIC_NO_RESTART, CHECKMODE_AUTOMATIC_NO_RESTART
  | CHECKMODE_SAVE_CURRENT, CHECKMODE_SAVE_CURRENT => true
  | _, _ => false
  end.

(** The system events the handler is subscribed to, and the parameter of
    a [cloud_status] event.  Values the handler has no branch for are
    kept as [cloud_status_other]. *)
Inductive system_event_t : Type :=
| cloud_status
| other_event (code : Z).

Inductive cloud_status_param : Type :=
| cloud_status_connecting
| cloud_status_connected
| cloud_status_disconnected
| cloud_status_other (code : Z).

(** ** C library and fixed-width arithmetic *)

(** Truncation to [uint16_t]. *)
Definition wrap16 (x : Z) : Z := x mod 65536.

(** Truncation to a 32-bit [int], two's complement: what [failureCount++]
    leaves on the targets of the library when the count is [INT_MAX]. *)
Definition wrap_int (x : Z) : Z :=
  (x + 2147483648) mod 4294967296 - 2147483648.

(** The sum of two [size_t] values, 32 bits wide on the targets of the
    library. *)
Definition size_t_add (a b : nat) : nat :=
  Z.to_nat ((Z.of_nat a + Z.of_nat b) mod 4294967296).

(** [memcmp a b n]: zero when the first [n] bytes agree, otherwise the
    difference of the first pair that differs.  Reading past the end of a
    buffer does not happen on the fixed-size arrays of the code; here a
    buffer that ends early compares as different from one that goes on. *)
Fixpoint memcmp (a b : list Z) (n : nat) {struct n} : Z :=
  match n with
  | O => 0
  | S n' =>
      match a, b with
      | x :: a', y :: b' => if x =? y then memcmp a' b' n' else x - y
      | [], [] => 0
      | [], _ :: _ => -1
      | _ :: _, [] => 1
      end
  end.

(** [memcpy dst src n]: the first [n] bytes of [dst] replaced by those of
    [src]. *)
Definition memcpy (dst src : list Z) (n : nat) : list Z :=
  firstn n src ++ skipn n dst.

(** Little-endian [int32_t] held in four bytes. *)
Definition int32_of_bytes (bs : list Z) : Z :=
  let u := nth 0%nat bs 0 + 256 * nth 1%nat bs 0
           + 65536 * nth 2%nat bs 0 + 16777216 * nth 3%nat bs 0 in
  if u <? 2147483648 then u else u - 4294967296.

(** ** The platform and the effects of the code *)

(** What the code does to the outside, in the order it does it. *)
Inductive Event : Type :=
| EvDctWrite (data : list Z) (offset len : nat)
| EvSave (r : DeviceKeyHelperSavedData)
| EvReset
| EvDisconnect.

Definition is_save (e : Event) : bool :=
  match e with EvSave _ => true | _ => false end.

Definition is_dct_write (e : Event) : bool :=
  match e with EvDctWrite _ _ _ => true | _ => false end.

(** What the build and the application fix: the constants of the header
    (assumed to fit the fields they are stored in) and the application's
    backing store with its two callbacks.  [load] receives the buffer it
    may fill and returns its verdict together with the buffer as it leaves
    it; [save] returns its verdict and the store as it leaves it. *)
Record Platform : Type := mkPlatform {
  DEVICE_KEYS_HELPER_SIZE : nat;
  DEVICE_KEYS_HELPER_OFFSET : nat;
  DATA_HEADER_MAGIC : Z;
  DIAG_ID_CLOUD_CONNECTION_ERROR_CODE : Z;
  SYSTEM_VERSION : Z;
  Backing : Type;
  load : Backing -> DeviceKeyHelperSavedData -> bool * DeviceKeyHelperSavedData;
  save : Backing -> DeviceKeyHelperSavedData -> bool * Backing
}.

(** The members of a [DeviceKeyHelper] object that the event handler
    reads and writes.  [failureCount] is an [int]. *)
Record DeviceKeyHelper : Type := mkHelper {
  connected : bool;
  failureCount : Z
}.

Section Model.

Variable P : Platform.

(** *** Backup record codec *)

(** The loop of [calculateChecksum], at index [ii] with [n] iterations
    left; [sum += savedData->keys[ii]] on a [uint16_t]. *)
Fixpoint checksum_loop (ks : list Z) (n ii : nat) (acc : Z) : Z :=
  match n with
  | O => acc
  | S n' => checksum_loop ks n' (S ii) (wrap16 (acc + nth ii ks 0))
  end.

Definition calculateChecksum (savedData : DeviceKeyHelperSavedData) : Z :=
  checksum_loop (keys savedData) (DEVICE_KEYS_HELPER_SIZE P) 0%nat 0.

Definition validateData (savedData : DeviceKeyHelperSavedData) : bool :=
  if negb (magic savedData =? DATA_HEADER_MAGIC P)
     || negb (size savedData =? Z.of_nat (DEVICE_KEYS_HELPER_SIZE P))
  then false
  else if negb (sum savedData =? calculateChecksum savedData)
  then false
  else true.

(** A record as the C type has it: [keys] is an array of
    [DEVICE_KEYS_HELPER_SIZE] bytes. *)
Definition wf_saved (r : DeviceKeyHelperSavedData) : Prop :=
  length (keys r) = DEVICE_KEYS_HELPER_SIZE P.

(** *** The world outside the object *)

(** [dct] is the configuration table the device keys live in; [backing]
    the application's store; [heap] the verdicts of the coming calls of
    [new] ([false]: a null pointer; none left: success); [diag] the chunks
    [system_format_diag_data] hands to its appender for a diagnostic id. *)
Record World : Type := mkWorld {
  dct : list Z;
  backing : Backing P;
  heap : list bool;
  diag : Z -> list (list Z)
}.

(** The result of running a piece of code: its value, the world it
    leaves, and the events it emitted. *)
Record Outcome (A : Type) : Type := mkOutcome {
  value : A;
  final : World;
  emitted : list Event
}.

Arguments mkOutcome {A} _ _ _.
Arguments value {A} _.
Arguments final {A} _.
Arguments emitted {A} _.

Definition M (A : Type) : Type := World -> Outcome A.

Definition ret {A : Type} (a : A) : M A :=
  fun w => mkOutcome a w [].

Definition bind {A B : Type} (m : M A) (f : A -> M B) : M B :=
  fun w =>
    let r1 := m w in
    let r2 := f (value r1) (final r1) in
    mkOutcome (value r2) (final r2) (emitted r1 ++ emitted r2).

Notation "x <- m ;; k" := (bind m (fun x => k))
  (at level 100, m at next level, right associativity).
Notation "m ;;; k" := (bind m (fun _ => k))
  (at level 100, right associativity).

(** [new]: the next verdict of the heap. *)
Definition new_ : M bool :=
  fun w =>
    mkOutcome (hd true (heap w))
      (mkWorld (dct w) (backing w) (tl (heap w)) (diag w)) [].

(** [new DeviceKeyHelperSavedData()]: value-initialised, all zero. *)
Definition saved_zero : DeviceKeyHelperSavedData :=
  mkSavedData 0 0 0 (repeat 0 (DEVICE_KEYS_HELPER_SIZE P)).

(** The [len] bytes of a table from [offset] on. *)
Definition dct_region (table : list Z) (offset len : nat) : list Z :=
  firstn len (skipn offset table).

Definition dct_read_app_data_copy (offset len : nat) : M (list Z) :=
  fun w => mkOutcome (dct_region (dct w) offset len) w [].

(** [dct_write_app_data]: the bytes from [offset] on replaced by the
    first [len] bytes of [data]; the status returned is 0. *)
Definition dct_write_app_data (data : list Z) (offset len : nat) : M Z :=
  fun w =>
    mkOutcome 0
      (mkWorld (firstn offset (dct w) ++ firstn len data
                  ++ skipn (offset + len) (dct w))
               (backing w) (heap w) (diag w))
      [EvDctWrite (firstn len data) offset len].

Definition call_load (buf : DeviceKeyHelperSavedData)
  : M (bool * DeviceKeyHelperSavedData) :=
  fun w => mkOutcome (load P (backing w) buf) w [].

Definition call_save (r : DeviceKeyHelperSavedData) : M bool :=
  fun w =>
    mkOutcome (fst (save P (backing w) r))
      (mkWorld (dct w) (snd (save P (backing w) r)) (heap w) (diag w))
      [EvSave r].

(** [System.reset()] and [Particle.disconnect()] are requests: they are
    recorded, and the code after them runs, which is the case the comments
    of the handler provide for. *)
Definition System_reset : M unit :=
  fun w => mkOutcome tt w [EvReset].

Definition Particle_disconnect : M unit :=
  fun w => mkOutcome tt w [EvDisconnect].

(** The live key region: what [check] reads into [onDevice]. *)
Definition live_region (w : World) : list Z :=
  dct_region (dct w) (DEVICE_KEYS_HELPER_OFFSET P) (DEVICE_KEYS_HELPER_SIZE P).

(** *** Key comparator and restorer *)

(** The test of lines 87-90: the buffer already holds the record that
    would be written. *)
Definition already_saved (saved : DeviceKeyHelperSavedData)
    (onDevice : list Z) : bool :=
  (magic saved =? DATA_HEADER_MAGIC P)
  && (size saved =? Z.of_nat (DEVICE_KEYS_HELPER_SIZE P))
  && (sum saved =? calculateChecksum saved)
  && (memcmp (keys saved) onDevice (DEVICE_KEYS_HELPER_SIZE P) =? 0).

(** Lines 100-104: the record handed to [save]. *)
Definition record_to_save (saved : DeviceKeyHelperSavedData)
    (onDevice : list Z) : DeviceKeyHelperSavedData :=
  let saved1 :=
    mkSavedData (magic saved) (size saved) (sum saved)
      (memcpy (keys saved) onDevice (DEVICE_KEYS_HELPER_SIZE P)) in
  let saved2 :=
    mkSavedData (DATA_HEADER_MAGIC P) (size saved1) (sum saved1)
      (keys saved1) in
  let saved3 :=
    mkSavedData (magic saved2) (Z.of_nat (DEVICE_KEYS_HELPER_SIZE P))
      (sum saved2) (keys saved2) in
  mkSavedData (magic saved3) (size saved3) (calculateChecksum saved3)
    (keys saved3).

(** Lines 43-84: the decision on the loaded buffer.  The value is the
    pair of the locals [result] and [saveKeys]. *)
Definition compare_and_restore (checkMode : CheckMode)
    (loaded : bool) (saved : DeviceKeyHelperSavedData)
    (onDevice : list Z) : M (bool * bool) :=
  if loaded then
    if validateData saved then
      if CheckMode_eqb checkMode CHECKMODE_SAVE_CURRENT then
        ret (true, true)
      else if negb (memcmp onDevice (keys saved)
                      (DEVICE_KEYS_HELPER_SIZE P) =? 0) then
        (if negb (CheckMode_eqb checkMode CHECKMODE_CHECK_ONLY) then
           (_ <- dct_write_app_data (keys saved)
                   (DEVICE_KEYS_HELPER_OFFSET P) (DEVICE_KEYS_HELPER_SIZE P) ;;
            if negb (CheckMode_eqb checkMode CHECKMODE_AUTOMATIC_NO_RESTART)
            then System_reset
            else ret tt)
         else ret tt) ;;;
        ret (false, false)
      else ret (true, false)
    else ret (true, true)
  else ret (true, true).

(** Lines 39-107, with both buffers at hand; the value is [result]. *)
Definition check_with_buffers (checkMode : CheckMode) : M bool :=
  onDevice <- dct_read_app_data_copy
                (DEVICE_KEYS_HELPER_OFFSET P) (DEVICE_KEYS_HELPER_SIZE P) ;;
  l <- call_load saved_zero ;;
  rs <- compare_and_restore checkMode (fst l) (snd l) onDevice ;;
  let saveKeys :=
    if snd rs then
      if already_saved (snd l) onDevice then false else true
    else false in
  (if saveKeys then
     (_ <- call_save (record_to_save (snd l) onDevice) ;; ret tt)
   else ret tt) ;;;
  ret (fst rs).

Definition check (checkMode : CheckMode) : M bool :=
  onDevice_ok <- new_ ;;
  if onDevice_ok then
    saved_ok <- new_ ;;
    if saved_ok then check_with_buffers checkMode
    else ret true
  else ret true.

(** *** Connectivity monitor *)

(** The 10 bytes of the union in [getSystemDiagValue] and the [offset]
    member that follows them.  Of the 10 bytes only the last four, the
    [value] member, are set to zero before the call and read after it. *)
Record DiagData : Type := mkDiagData {
  diag_b : list Z;
  diag_offset : nat
}.

(** The callback given to [system_format_diag_data]: a chunk is taken
    when [offset + size], a sum of [size_t], is at most 10.  A chunk so
    large that the sum wraps passes the test as well; the copy then runs
    past the union, which shows here as a buffer of more than 10 bytes. *)
Definition appender (d : DiagData) (chunk : list Z) : DiagData :=
  if (size_t_add (diag_offset d) (length chunk) <=? 10)%nat then
    mkDiagData
      (firstn (diag_offset d) (diag_b d) ++ chunk
         ++ skipn (diag_offset d + length chunk) (diag_b d))
      (size_t_add (diag_offset d) (length chunk))
  else d.

(** [getSystemDiagValue]: the verdict and the value left in [value]. *)
Definition getSystemDiagValue (id : Z) : M (bool * Z) :=
  if SYSTEM_VERSION P >=? 0x00080000 then
    fun w =>
      let data :=
        fold_left appender (diag w id) (mkDiagData (repeat 0 10%nat) 0) in
      mkOutcome
        ((diag_offset data =? 10)%nat,
         int32_of_bytes (firstn 4 (skipn 6 (diag_b data))))
        w []
  else ret (false, 0).

(** Lines 168-174 and 184-190: the recovery sequence. *)
Definition recover : M unit :=
  Particle_disconnect ;;;
  (_ <- check CHECKMODE_AUTOMATIC ;;
   System_reset).

Definition eventHandler (this : DeviceKeyHelper) (event : system_event_t)
    (param : cloud_status_param) : M DeviceKeyHelper :=
  match event with
  | cloud_status =>
      match param with
      | cloud_status_connecting =>
          ret (mkHelper false (failureCount this))
      | cloud_status_connected =>
          _ <- check CHECKMODE_SAVE_CURRENT ;;
          ret (mkHelper true 0)
      | cloud_status_disconnected =>
          if negb (connected this) then
            if SYSTEM_VERSION P >=? 0x00080000 then
              d <- getSystemDiagValue (DIAG_ID_CLOUD_CONNECTION_ERROR_CODE P) ;;
              if fst d then
                if (snd d =? 26) || (snd d =? 10) then
                  recover ;;; ret this
                else ret this
              else ret this
            else
              let this1 :=
                mkHelper (connected this)
                  (wrap_int (failureCount this + 1)) in
              if failureCount this1 >=? 3 then
                recover ;;; ret this1
              else ret this1
          else ret this
      | cloud_status_other _ => ret this
      end
  | other_event _ => ret this
  end.

(** The handler run over a sequence of events, the outcome of each being
    the start of the next. *)
Fixpoint run_events (this : DeviceKeyHelper)
    (evs : list (system_event_t * cloud_status_param)) : M DeviceKeyHelper :=
  match evs with
  | [] => ret this
  | (event, param) :: rest =>
      this1 <- eventHandler this event param ;;
      run_events this1 rest
  end.

End Model.

Arguments mkOutcome {P A} _ _ _.
Arguments value {P A} _.
Arguments final {P A} _.
Arguments emitted {P A} _.
Arguments ret {P A} _ _.
Arguments bind {P A B} _ _ _.
Arguments new_ {P} _.
Arguments World P : clear implicits.

(** ** Vocabulary of the statements *)

(** Both buffers of [check] are obtained: neither of the next two calls
    of [new] returns a null pointer. *)
Definition buffers_allocated {P : Platform} (w : World P) : bool :=
  hd true (heap P w) && hd true (tl (heap P w)).

(** The world once the two buffers are obtained. *)
Definition with_buffers {P : Platform} (w : World P) : World P :=
  mkWorld P (dct P w) (backing P w) (tl (tl (heap P w))) (diag P w).

(** What the [load] callback answers when [check] calls it. *)
Definition loaded_buffer (P : Platform) (w : World P)
  : bool * DeviceKeyHelperSavedData :=
  load P (backing P w) (saved_zero P).

(** [check] loads a record and the record passes [validateData]. *)
Definition valid_backup (P : Platform) (w : World P) : bool :=
  fst (loaded_buffer P w) && validateData P (snd (loaded_buffer P w)).

(** The record [check] hands to [save] when it saves. *)
Definition fresh_record (P : Platform) (w : World P)
  : DeviceKeyHelperSavedData :=
  record_to_save P (snd (loaded_buffer P w)) (live_region P w).

(** The world after [save] was called on the fresh record. *)
Definition saved_world (P : Platform) (w : World P) : World P :=
  mkWorld P (dct P w) (snd (save P (backing P w) (fresh_record P w)))
    (heap P w) (diag P w).

(** The world after the payload of the loaded record was written to the
    key region. *)
Definition restored_world (P : Platform) (w : World P) : World P :=
  mkWorld P
    (firstn (DEVICE_KEYS_HELPER_OFFSET P) (dct P w)
       ++ firstn (DEVICE_KEYS_HELPER_SIZE P) (keys (snd (loaded_buffer P w)))
       ++ skipn (DEVICE_KEYS_HELPER_OFFSET P + DEVICE_KEYS_HELPER_SIZE P)
            (dct P w))
    (backing P w) (heap P w) (diag P w).

Definition restore_event (P : Platform) (w : World P) : Event :=
  EvDctWrite
    (firstn (DEVICE_KEYS_HELPER_SIZE P) (keys (snd (loaded_buffer P w))))
    (DEVICE_KEYS_HELPER_OFFSET P) (DEVICE_KEYS_HELPER_SIZE P).

(** The backup diverges from the key region. *)
Definition diverged (P : Platform) (w : World P) : bool :=
  negb (memcmp (live_region P w) (keys (snd (loaded_buffer P w)))
          (DEVICE_KEYS_HELPER_SIZE P) =? 0).

(** The outcome of [check] in every case: without the buffers; on the
    save path (no valid backup, or [CHECKMODE_SAVE_CURRENT]); on the
    compare path. *)
Inductive check_case (P : Platform) (mode : CheckMode) (w : World P)
  : Outcome P bool -> Prop :=
| case_no_buffers o :
    buffers_allocated w = false ->
    value o = true -> emitted o = [] ->
    dct P (final o) = dct P w -> backing P (final o) = backing P w ->
    check_case P mode w o
| case_nothing_to_save :
    buffers_allocated w = true ->
    valid_backup P w = false \/ mode = CHECKMODE_SAVE_CURRENT ->
    already_saved P (snd (loaded_buffer P w)) (live_region P w) = true ->
    check_case P mode w (mkOutcome true (with_buffers w) [])
| case_save :
    buffers_allocated w = true ->
    valid_backup P w = false \/ mode = CHECKMODE_SAVE_CURRENT ->
    already_saved P (snd (loaded_buffer P w)) (live_region P w) = false ->
    check_case P mode w
      (mkOutcome true (saved_world P (with_buffers w))
         [EvSave (fresh_record P w)])
| case_unchanged :
    buffers_allocated w = true ->
    valid_backup P w = true -> mode <> CHECKMODE_SAVE_CURRENT ->
    diverged P w = false ->
    check_case P mode w (mkOutcome true (with_buffers w) [])
| case_report :
    buffers_allocated w = true ->
    valid_backup P w = true -> mode = CHECKMODE_CHECK_ONLY ->
    diverged P w = true ->
    check_case P mode w (mkOutcome false (with_buffers w) [])
| case_restore :
    buffers_allocated w = true ->
    valid_backup P w = true -> mode = CHECKMODE_AUTOMATIC_NO_RESTART ->
    diverged P w = true ->
    check_case P mode w
      (mkOutcome false (restored_world P (with_buffers w))
         [restore_event P w])
| case_restore_reset :
    buffers_allocated w = true ->
    valid_backup P w = true -> mode = CHECKMODE_AUTOMATIC ->
    diverged P w = true ->
    check_case P mode w
      (mkOutcome false (restored_world P (with_buffers w))
         [restore_event P w; EvReset]).

(** What the recovery sequence of the event handler emits: the request
    to disconnect, what [check(CHECKMODE_AUTOMATIC)] emits, and the
    request to reset. *)
Definition recovery_events (P : Platform) (w : World P) : list Event :=
  [EvDisconnect] ++ emitted (check P CHECKMODE_AUTOMATIC w) ++ [EvReset].

Definition Connecting : system_event_t * cloud_status_param :=
  (cloud_status, cloud_status_connecting).

Definition Connected : system_event_t * cloud_status_param :=
  (cloud_status, cloud_status_connected).

Definition Disconnected : system_event_t * cloud_status_param :=
  (cloud_status, cloud_status_disconnected).

(** The number of calls of [save] among some events. *)
Definition saves (evs : list Event) : nat := length (filter is_save evs).

(** The device-key region lies inside the configuration table. *)
Definition wf_world (P : Platform) (w : World P) : Prop :=
  (DEVICE_KEYS_HELPER_OFFSET P + DEVICE_KEYS_HELPER_SIZE P
   <= length (dct P w))%nat.

(** The sum of a byte sequence, without truncation. *)
Definition byte_sum (ks : list Z) : Z := fold_right Z.add 0 ks.

(** A backing store gives back what was saved last. *)
Definition faithful_store (P : Platform) : Prop :=
  forall (b : Backing P) (r buf : DeviceKeyHelperSavedData),
    load P (snd (save P b r)) buf = (true, r).

(** A buffer with the byte at index [i] replaced by [b]. *)
Definition set_byte (ks : list Z) (i : nat) (b : Z) : list Z :=
  firstn i ks ++ b :: skipn (S i) ks.

(** A record with another payload, header untouched. *)
Definition with_keys (r : DeviceKeyHelperSavedData) (ks : list Z)
  : DeviceKeyHelperSavedData :=
  mkSavedData (magic r) (size r) (sum r) ks.

(** The four bytes of an [int32_t], least significant first. *)
Definition int32_to_bytes (v : Z) : list Z :=
  let u := v mod 4294967296 in
  [u mod 256; (u / 256) mod 256; (u / 65536) mod 256; u / 16777216].

(** The union of [getSystemDiagValue] before the platform fills it. *)
Definition diag_init : DiagData := mkDiagData (repeat 0 10%nat) 0.

(** The backup the callback loads is already the record of the keys in
    the table: nothing is left for [check] to do. *)
Definition in_sync (P : Platform) (w : World P) : bool :=
  already_saved P (snd (loaded_buffer P w)) (live_region P w).

(** The outcome of [eventHandler] in every case. *)
Inductive handler_case (P : Platform) (this : DeviceKeyHelper) (w : World P)
  : Outcome P DeviceKeyHelper -> Prop :=
| handler_ignores :
    handler_case P this w (mkOutcome this w [])
| handler_connecting :
    handler_case P this w
      (mkOutcome (mkHelper false (failureCount this)) w [])
| handler_connected o :
    value o = mkHelper true 0 ->
    final o = final (check P CHECKMODE_SAVE_CURRENT w) ->
    emitted o = emitted (check P CHECKMODE_SAVE_CURRENT w) ->
    handler_case P this w o
| handler_counts :
    connected this = false ->
    SYSTEM_VERSION P < 0x00080000 ->
    wrap_int (failureCount this + 1) < 3 ->
    handler_case P this w
      (mkOutcome (mkHelper false (wrap_int (failureCount this + 1))) w [])
| handler_recovers_count :
    connected this = false ->
    SYSTEM_VERSION P < 0x00080000 ->
    3 <= wrap_int (failureCount this + 1) ->
    handler_case P this w
      (mkOutcome (mkHelper false (wrap_int (failureCount this + 1)))
         (final (check P CHECKMODE_AUTOMATIC w)) (recovery_events P w))
| handler_recovers_diag :
    connected this = false ->
    0x00080000 <= SYSTEM_VERSION P ->
    handler_case P this w
      (mkOutcome this (final (check P CHECKMODE_AUTOMATIC w))
         (recovery_events P w)).

Definition is_disconnected (e : system_event_t * cloud_status_param) : bool :=
  match e with
  | (cloud_status, cloud_status_disconnected) => true
  | _ => false
  end.

(** The number of Disconnected events in a sequence. *)
Definition disconnections
    (evs : list (system_event_t * cloud_status_param)) : Z :=
  Z.of_nat (length (filter is_disconnected evs)).

(** The callbacks respect the C type of the record: on the stores that
    satisfy [good], [load] leaves in the buffer an array of
    [DEVICE_KEYS_HELPER_SIZE] key bytes, and [save] of such a record
    leaves a store that satisfies [good]. *)
Definition shaped_store (P : Platform) (good : Backing P -> Prop) : Prop :=
  (forall (b : Backing P) (buf : DeviceKeyHelperSavedData),
      good b -> wf_saved P buf -> wf_saved P (snd (load P b buf)))
  /\ (forall (b : Backing P) (r : DeviceKeyHelperSavedData),
         good b -> wf_saved P r -> good (snd (save P b r))).

(** ** A small platform to evaluate the code on *)

(** A store of at most one record: [load] fails on the empty store and
    leaves the buffer alone. *)
Definition slot_load (b : option DeviceKeyHelperSavedData)
    (buf : DeviceKeyHelperSavedData) : bool * DeviceKeyHelperSavedData :=
  match b with
  | Some r => (true, r)
  | None => (false, buf)
  end.

Definition slot_save (b : option DeviceKeyHelperSavedData)
    (r : DeviceKeyHelperSavedData) : bool * option DeviceKeyHelperSavedData :=
  (true, Some r).

(** A [load] that fills the buffer and then reports a failure. *)
Definition grudging_load (b : option DeviceKeyHelperSavedData)
    (buf : DeviceKeyHelperSavedData) : bool * DeviceKeyHelperSavedData :=
  match b with
  | Some r => (false, r)
  | None => (false, buf)
  end.

(** Four key bytes at offset 2; [version] selects the branch of the
    conditional compilation. *)
Definition slot_platform (version : Z) : Platform :=
  mkPlatform 4 2 0x4b455953 0 version
    (option DeviceKeyHelperSavedData) slot_load slot_save.

(** The one-record store holds nothing or a record of the right shape. *)
Definition slot_good (version : Z) (b : option DeviceKeyHelperSavedData)
  : Prop :=
  match b with
  | Some r => wf_saved (slot_platform version) r
  | None => True
  end.

Definition grudging_platform : Platform :=
  mkPlatform 4 2 0x4b455953 0 0x00070000
    (option DeviceKeyHelperSavedData) grudging_load slot_save.

Definition no_diag : Z -> list (list Z) := fun _ => [].

(** A table whose key region holds 1, 2, 3, 4. *)
Definition table_1234 : list Z := [9; 9; 1; 2; 3; 4; 9].

(** A valid record of the keys 1, 2, 3, 4, and one of the keys
    5, 6, 7, 8. *)
Definition record_1234 : DeviceKeyHelperSavedData :=
  mkSavedData 0x4b455953 4 10 [1; 2; 3; 4].

Definition record_5678 : DeviceKeyHelperSavedData :=
  mkSavedData 0x4b455953 4 26 [5; 6; 7; 8].

(** A record whose checksum is wrong. *)
Definition record_bad_sum : DeviceKeyHelperSavedData :=
  mkSavedData 0x4b455953 4 11 [1; 2; 3; 4].

Definition slot_world (version : Z) (b : option DeviceKeyHelperSavedData)
    (h : list bool) : World (slot_platform version) :=
  mkWorld (slot_platform version) table_1234 b h no_diag.

Definition grudging_world (b : option DeviceKeyHelperSavedData)
  : World grudging_platform :=
  mkWorld grudging_platform table_1234 b [] no_diag.

(** A build with the diagnostic query, whose platform reports the
    connection error [code]: the sizes of id and value, the id, then the
    value, least significant byte first. *)
Definition diag_reports (code : Z) : Z -> list (list Z) :=
  fun id => [[2; 0]; [4; 0]; [id mod 256; id / 256]; [code; 0; 0; 0]].

Definition diag_world (code : Z) (b : option DeviceKeyHelperSavedData)
  : World (slot_platform 0x00080000) :=
  mkWorld (slot_platform 0x00080000) table_1234 b [] (diag_reports code).

(** A platform with 300 key bytes, enough for the checksum to wrap. *)
Definition wide_platform : Platform :=
  mkPlatform 300 0 0x4b455953 0 0x00070000
    (option DeviceKeyHelperSavedData) slot_load slot_save.

(** * Properties *)

(** ** Backup record codec *)

Lemma wrap16_range (x : Z) : 0 <= wrap16 x < 65536.
Proof. unfold wrap16. apply Z.mod_pos_bound. lia. Qed.

Lemma byte_sum_firstn_step (ks : list Z) (n ii : nat) :
  byte_sum (firstn (S n) (skipn ii ks))
  = nth ii ks 0 + byte_sum (firstn n (skipn (S ii) ks)).
Proof.
  revert ii. induction ks as [|k ks IH]; intros ii.
  - rewrite !skipn_nil, !firstn_nil. destruct ii; reflexivity.
  - destruct ii as [|ii]; [reflexivity|]. apply (IH ii).
Qed.

Lemma checksum_loop_sum (ks : list Z) (n : nat) :
  forall (ii : nat) (acc : Z),
    0 <= acc < 65536 ->
    checksum_loop ks n ii acc
    = (acc + byte_sum (firstn n (skipn ii ks))) mod 65536.
Proof.
  induction n as [|n IH]; intros ii acc Hacc.
  - simpl. rewrite Z.add_0_r, Z.mod_small; lia.
  - cbn [checksum_loop]. rewrite IH by apply wrap16_range.
    rewrite byte_sum_firstn_step. unfold wrap16.
    rewrite Zplus_mod_idemp_l. f_equal. lia.
Qed.

Lemma calculateChecksum_sum (P : Platform) (r : DeviceKeyHelperSavedData) :
  calculateChecksum P r
  = byte_sum (firstn (DEVICE_KEYS_HELPER_SIZE P) (keys r)) mod 65536.
Proof.
  unfold calculateChecksum. rewrite checksum_loop_sum by lia. reflexivity.
Qed.

Lemma validateData_true (P : Platform) (r : DeviceKeyHelperSavedData) :
  validateData P r = true <->
  magic r = DATA_HEADER_MAGIC P
  /\ size r = Z.of_nat (DEVICE_KEYS_HELPER_SIZE P)
  /\ sum r = calculateChecksum P r.
Proof.
  unfold validateData.
  destruct (Z.eqb_spec (magic r) (DATA_HEADER_MAGIC P));
    destruct (Z.eqb_spec (size r) (Z.of_nat (DEVICE_KEYS_HELPER_SIZE P)));
    destruct (Z.eqb_spec (sum r) (calculateChecksum P r));
    simpl; intuition congruence.
Qed.

(** C3: [validateData] accepts a record exactly when its magic is
    [DATA_HEADER_MAGIC], its size is [DEVICE_KEYS_HELPER_SIZE] and its sum
    is [calculateChecksum] of it, which is the sum of all the bytes of the
    payload modulo 2^16.  Both are functions of the record alone: no world
    is read or changed. *)
Theorem validateData_spec (P : Platform) (r : DeviceKeyHelperSavedData) :
  wf_saved P r ->
  (validateData P r = true <->
   magic r = DATA_HEADER_MAGIC P
   /\ size r = Z.of_nat (DEVICE_KEYS_HELPER_SIZE P)
   /\ sum r = calculateChecksum P r)
  /\ calculateChecksum P r = byte_sum (keys r) mod 2 ^ 16.
Proof.
  intros Hwf. split; [apply validateData_true|].
  rewrite calculateChecksum_sum. unfold wf_saved in Hwf.
  rewrite <- Hwf, firstn_all. reflexivity.
Qed.

Lemma validateData_spec_witness :
  wf_saved (slot_platform 0x00070000) record_1234
  /\ validateData (slot_platform 0x00070000) record_1234 = true
  /\ calculateChecksum (slot_platform 0x00070000) record_1234 = 10.
Proof.
  assert (Hwf : wf_saved (slot_platform 0x00070000) record_1234)
    by reflexivity.
  destruct (validateData_spec (slot_platform 0x00070000) record_1234 Hwf)
    as [Hiff Hsum].
  split; [exact Hwf|]. split.
  - apply Hiff. repeat split; reflexivity.
  - rewrite Hsum. reflexivity.
Defined.

(** ** Buffers *)

Lemma memcmp_zero_iff (n : nat) :
  forall a b : list Z, memcmp a b n = 0 <-> firstn n a = firstn n b.
Proof.
  induction n as [|n IH]; intros a b; [simpl; split; reflexivity|].
  destruct a as [|x a], b as [|y b]; simpl; try (split; [lia|discriminate]).
  - split; reflexivity.
  - destruct (Z.eqb_spec x y) as [->|Hne].
    + rewrite IH. split; [intros ->; reflexivity|congruence].
    + split; [lia|congruence].
Qed.

Lemma memcmp_eqb_false (n : nat) (a b : list Z) :
  (memcmp a b n =? 0) = false <-> firstn n a <> firstn n b.
Proof.
  rewrite Z.eqb_neq, memcmp_zero_iff. tauto.
Qed.

Lemma dct_region_length (table : list Z) (offset len : nat) :
  (offset + len <= length table)%nat ->
  length (dct_region table offset len) = len.
Proof.
  intros H. unfold dct_region. rewrite length_firstn, length_skipn. lia.
Qed.

Lemma dct_region_written (table data : list Z) (offset len : nat) :
  (offset <= length table)%nat ->
  length data = len ->
  dct_region (firstn offset table ++ firstn len data
                ++ skipn (offset + len) table) offset len = data.
Proof.
  intros Hoff Hlen. unfold dct_region.
  assert (HA : length (firstn offset table) = offset)
    by (rewrite length_firstn; lia).
  assert (HB : firstn len data = data) by (subst len; apply firstn_all).
  rewrite HB, skipn_app, HA, Nat.sub_diag.
  rewrite skipn_all2 by lia. cbn [skipn app].
  rewrite firstn_app, Hlen, Nat.sub_diag.
  rewrite <- Hlen, firstn_all. cbn [firstn]. apply app_nil_r.
Qed.

Lemma live_region_length (P : Platform) (w : World P) :
  wf_world P w -> length (live_region P w) = DEVICE_KEYS_HELPER_SIZE P.
Proof. apply dct_region_length. Qed.

Lemma firstn_live_region (P : Platform) (w : World P) :
  firstn (DEVICE_KEYS_HELPER_SIZE P) (live_region P w) = live_region P w.
Proof.
  unfold live_region, dct_region. rewrite firstn_firstn, Nat.min_id.
  reflexivity.
Qed.

(** ** check *)

Ltac unfold_check :=
  unfold check_with_buffers, compare_and_restore, bind, ret,
    dct_read_app_data_copy, call_load, call_save, dct_write_app_data,
    System_reset; cbn [value final emitted dct backing heap diag].

Lemma check_without_buffers (P : Platform) (mode : CheckMode) (w : World P) :
  buffers_allocated w = false ->
  value (check P mode w) = true
  /\ emitted (check P mode w) = []
  /\ dct P (final (check P mode w)) = dct P w
  /\ backing P (final (check P mode w)) = backing P w.
Proof.
  unfold buffers_allocated, check, bind, ret, new_. cbn.
  destruct (hd true (heap P w)); cbn; [|repeat split; reflexivity].
  intros ->. repeat split; reflexivity.
Qed.

Lemma check_allocated (P : Platform) (mode : CheckMode) (w : World P) :
  buffers_allocated w = true ->
  check P mode w = check_with_buffers P mode (with_buffers w).
Proof.
  unfold buffers_allocated, check, with_buffers, bind, ret, new_. cbn.
  destruct (hd true (heap P w)); cbn; [|discriminate].
  intros ->. reflexivity.
Qed.

Lemma cwb_save_path (P : Platform) (mode : CheckMode) (w : World P) :
  valid_backup P w = false \/ mode = CHECKMODE_SAVE_CURRENT ->
  check_with_buffers P mode w
  = if already_saved P (snd (loaded_buffer P w)) (live_region P w)
    then mkOutcome true w []
    else mkOutcome true (saved_world P w) [EvSave (fresh_record P w)].
Proof.
  unfold valid_backup, saved_world, fresh_record, loaded_buffer, live_region.
  intros H. unfold_check.
  destruct (load P (backing P w) (saved_zero P)) as [ok r]; cbn in *.
  destruct ok; cbn in *;
    [destruct (validateData P r); cbn in *|];
    try (destruct H as [H|H]; [discriminate|subst mode]; cbn);
    destruct (already_saved P r _); cbn; try reflexivity.
  all: destruct H as [H|H]; try discriminate; subst mode; reflexivity.
Qed.

Lemma cwb_compare_path (P : Platform) (mode : CheckMode) (w : World P) :
  valid_backup P w = true ->
  mode <> CHECKMODE_SAVE_CURRENT ->
  check_with_buffers P mode w
  = if diverged P w then
      match mode with
      | CHECKMODE_CHECK_ONLY => mkOutcome false w []
      | CHECKMODE_AUTOMATIC_NO_RESTART =>
          mkOutcome false (restored_world P w) [restore_event P w]
      | _ => mkOutcome false (restored_world P w) [restore_event P w; EvReset]
      end
    else mkOutcome true w [].
Proof.
  unfold valid_backup, diverged, restored_world, restore_event,
    loaded_buffer, live_region.
  intros H Hmode. unfold_check.
  destruct (load P (backing P w) (saved_zero P)) as [ok r]; cbn in *.
  apply andb_prop in H. destruct H as [-> ->].
  destruct mode; try congruence; cbn;
    destruct (memcmp _ _ _ =? 0); reflexivity.
Qed.

Lemma diverged_true (P : Platform) (w : World P) :
  diverged P w = true <->
  firstn (DEVICE_KEYS_HELPER_SIZE P) (keys (snd (loaded_buffer P w)))
  <> live_region P w.
Proof.
  unfold diverged. rewrite negb_true_iff, memcmp_eqb_false.
  rewrite firstn_live_region. split; intros H E; apply H; congruence.
Qed.

Lemma CheckMode_eq_dec (a b : CheckMode) : {a = b} + {a <> b}.
Proof. decide equality. Defined.

Lemma check_cases (P : Platform) (mode : CheckMode) (w : World P) :
  check_case P mode w (check P mode w).
Proof.
  destruct (buffers_allocated w) eqn:Hb.
  2:{ destruct (check_without_buffers P mode w Hb) as (H1 & H2 & H3 & H4).
      now apply case_no_buffers. }
  rewrite (check_allocated P mode w Hb).
  destruct (valid_backup P w) eqn:Hv;
    [destruct (CheckMode_eq_dec mode CHECKMODE_SAVE_CURRENT) as [Hm|Hm]|].
  - rewrite cwb_save_path by (right; exact Hm).
    change (loaded_buffer P (with_buffers w)) with (loaded_buffer P w).
    change (live_region P (with_buffers w)) with (live_region P w).
    change (fresh_record P (with_buffers w)) with (fresh_record P w).
    destruct (already_saved P _ _) eqn:Ha;
      [apply case_nothing_to_save|apply case_save]; auto.
  - rewrite cwb_compare_path by assumption.
    change (diverged P (with_buffers w)) with (diverged P w).
    change (restore_event P (with_buffers w)) with (restore_event P w).
    destruct (diverged P w) eqn:Hd; [|now apply case_unchanged].
    destruct mode; try congruence;
      [apply case_report|apply case_restore_reset|apply case_restore];
      auto.
  - rewrite cwb_save_path by (left; exact Hv).
    change (loaded_buffer P (with_buffers w)) with (loaded_buffer P w).
    change (live_region P (with_buffers w)) with (live_region P w).
    change (fresh_record P (with_buffers w)) with (fresh_record P w).
    destruct (already_saved P _ _) eqn:Ha;
      [apply case_nothing_to_save|apply case_save]; auto.
Qed.

(** C10: [check] returns [false] exactly when both buffers were obtained,
    a record was loaded and passed [validateData], the mode is not
    [CHECKMODE_SAVE_CURRENT] and the payload of the record differs from
    the key region; in every other case it returns [true]. *)
Theorem check_false_iff (P : Platform) (mode : CheckMode) (w : World P) :
  value (check P mode w) = false <->
  buffers_allocated w = true
  /\ fst (loaded_buffer P w) = true
  /\ validateData P (snd (loaded_buffer P w)) = true
  /\ mode <> CHECKMODE_SAVE_CURRENT
  /\ firstn (DEVICE_KEYS_HELPER_SIZE P) (keys (snd (loaded_buffer P w)))
     <> live_region P w.
Proof.
  assert (Hvb := andb_true_iff (fst (loaded_buffer P w))
                   (validateData P (snd (loaded_buffer P w)))).
  fold (valid_backup P w) in Hvb.
  assert (Hdv := diverged_true P w).
  destruct (check_cases P mode w)
    as [o Hb Hv He Hd Hk|Hb Hs Ha|Hb Hs Ha|Hb Hv Hm Hd|Hb Hv Hm Hd
        |Hb Hv Hm Hd|Hb Hv Hm Hd]; cbn [value];
    (split;
     [try discriminate; try congruence
     |intros (Hb' & Hf & Hva & Hm' & Hdiv);
      assert (Hv' : valid_backup P w = true) by (apply Hvb; auto);
      assert (Hd' : diverged P w = true) by (apply Hdv; exact Hdiv);
      try congruence]).
  - destruct Hs; congruence.
  - destruct Hs; congruence.
  - intros _. subst mode. apply Hvb in Hv. apply Hdv in Hd.
    repeat split; try tauto; discriminate.
  - intros _. subst mode. apply Hvb in Hv. apply Hdv in Hd.
    repeat split; try tauto; discriminate.
  - intros _. subst mode. apply Hvb in Hv. apply Hdv in Hd.
    repeat split; try tauto; discriminate.
Qed.

(** C1: whatever the mode and the world, [check] writes the key region
    only when the record it loaded passed [validateData], and what it
    writes is the payload of that record; when no record is loaded or the
    record fails validation the region is left as it was. *)
Theorem check_restores_only_valid (P : Platform) (mode : CheckMode)
    (w : World P) :
  existsb is_dct_write (emitted (check P mode w)) = true
  \/ dct P (final (check P mode w)) <> dct P w ->
  buffers_allocated w = true
  /\ fst (loaded_buffer P w) = true
  /\ validateData P (snd (loaded_buffer P w)) = true
  /\ filter is_dct_write (emitted (check P mode w)) = [restore_event P w]
  /\ dct P (final (check P mode w)) = dct P (restored_world P w).
Proof.
  assert (Hvb := andb_true_iff (fst (loaded_buffer P w))
                   (validateData P (snd (loaded_buffer P w)))).
  fold (valid_backup P w) in Hvb.
  destruct (check_cases P mode w)
    as [o Hb Hv He Hd Hk|Hb Hs Ha|Hb Hs Ha|Hb Hv Hm Hd|Hb Hv Hm Hd
        |Hb Hv Hm Hd|Hb Hv Hm Hd]; cbn [value final emitted].
  1:{ rewrite He, Hd. cbn. intros [H|H]; [discriminate|congruence]. }
  1-4: cbn; intros [H|H]; [discriminate|congruence].
  all: intros _; apply Hvb in Hv; repeat split; tauto.
Qed.

Lemma check_restores_only_valid_witness :
  filter is_dct_write
    (emitted (check (slot_platform 0x00070000) CHECKMODE_AUTOMATIC
                (slot_world 0x00070000 (Some record_5678) [])))
  = [EvDctWrite [5; 6; 7; 8] 2 4].
Proof.
  apply (check_restores_only_valid (slot_platform 0x00070000)
           CHECKMODE_AUTOMATIC (slot_world 0x00070000 (Some record_5678) [])).
  left. reflexivity.
Defined.

(** C2: when a record loads, passes [validateData] and its payload
    differs from the key region, [check] in [CHECKMODE_AUTOMATIC] writes
    the payload over the key region, asks for a reset and returns [false];
    in [CHECKMODE_AUTOMATIC_NO_RESTART] it does the same write, returns
    [false] and asks for no reset. *)
Theorem check_automatic_restores (P : Platform) (w : World P)
    (r : DeviceKeyHelperSavedData) :
  buffers_allocated w = true ->
  wf_world P w ->
  loaded_buffer P w = (true, r) ->
  validateData P r = true ->
  wf_saved P r ->
  keys r <> live_region P w ->
  (value (check P CHECKMODE_AUTOMATIC w) = false
   /\ emitted (check P CHECKMODE_AUTOMATIC w)
      = [EvDctWrite (keys r) (DEVICE_KEYS_HELPER_OFFSET P)
           (DEVICE_KEYS_HELPER_SIZE P); EvReset]
   /\ live_region P (final (check P CHECKMODE_AUTOMATIC w)) = keys r)
  /\ (value (check P CHECKMODE_AUTOMATIC_NO_RESTART w) = false
      /\ emitted (check P CHECKMODE_AUTOMATIC_NO_RESTART w)
         = [EvDctWrite (keys r) (DEVICE_KEYS_HELPER_OFFSET P)
              (DEVICE_KEYS_HELPER_SIZE P)]
      /\ live_region P (final (check P CHECKMODE_AUTOMATIC_NO_RESTART w))
         = keys r).
Proof.
  intros Hb Hw Hl Hv Hr Hne.
  assert (Hfull : firstn (DEVICE_KEYS_HELPER_SIZE P) (keys r) = keys r)
    by (rewrite <- Hr; apply firstn_all).
  assert (Hvb : valid_backup P w = true)
    by (unfold valid_backup; rewrite Hl; cbn; now rewrite Hv).
  assert (Hd : diverged P w = true)
    by (apply diverged_true; rewrite Hl; cbn; congruence).
  assert (Hlive : live_region P (restored_world P (with_buffers w)) = keys r).
  { unfold live_region, restored_world. cbn [dct].
    change (loaded_buffer P (with_buffers w)) with (loaded_buffer P w).
    change (dct P (with_buffers w)) with (dct P w).
    rewrite Hl. cbn [snd]. apply dct_region_written; [|exact Hr].
    unfold wf_world in Hw. lia. }
  rewrite !(check_allocated P _ w Hb).
  rewrite !cwb_compare_path by (assumption || discriminate).
  change (diverged P (with_buffers w)) with (diverged P w). rewrite Hd.
  cbn [value emitted final]. unfold restore_event.
  change (loaded_buffer P (with_buffers w)) with (loaded_buffer P w).
  rewrite Hl. cbn [snd]. rewrite Hfull.
  repeat split; try reflexivity; try exact Hlive.
Qed.

Lemma check_automatic_restores_witness :
  value (check (slot_platform 0x00070000) CHECKMODE_AUTOMATIC
           (slot_world 0x00070000 (Some record_5678) [])) = false
  /\ live_region (slot_platform 0x00070000)
       (final (check (slot_platform 0x00070000) CHECKMODE_AUTOMATIC
                 (slot_world 0x00070000 (Some record_5678) [])))
     = [5; 6; 7; 8].
Proof.
  assert (H := check_automatic_restores (slot_platform 0x00070000)
                 (slot_world 0x00070000 (Some record_5678) []) record_5678).
  destruct H as [(Hv & _ & Hl) _].
  - reflexivity.
  - unfold wf_world. cbn. lia.
  - reflexivity.
  - reflexivity.
  - reflexivity.
  - cbn. discriminate.
  - split; [exact Hv|exact Hl].
Defined.

(** C4, as stated, fails: with no backup in the store,
    [check(CHECKMODE_CHECK_ONLY)] calls [save] on a record of the current
    keys. *)
Lemma check_only_saves_counterexample :
  emitted (check (slot_platform 0x00070000) CHECKMODE_CHECK_ONLY
             (slot_world 0x00070000 None []))
  = [EvSave record_1234]
  /\ backing (slot_platform 0x00070000)
       (final (check (slot_platform 0x00070000) CHECKMODE_CHECK_ONLY
                 (slot_world 0x00070000 None [])))
     = Some record_1234.
Proof. split; reflexivity. Qed.

(** C4, amended: [check(CHECKMODE_CHECK_ONLY)] never writes the key
    region and never asks for a reset.  It calls [save], once and on the
    record of the current keys, exactly when both buffers were obtained,
    no valid backup was loaded ([load] failed or the record failed
    [validateData]) and the buffer [load] left is not already that
    record; a loaded record that fails [validateData] never is.  In every
    other case, a valid backup present or not, diverging or not, it emits
    nothing and leaves the backing store as it was. *)
Theorem check_only_effects (P : Platform) (w : World P) :
  dct P (final (check P CHECKMODE_CHECK_ONLY w)) = dct P w
  /\ emitted (check P CHECKMODE_CHECK_ONLY w)
     = (if buffers_allocated w && negb (valid_backup P w)
           && negb (already_saved P (snd (loaded_buffer P w))
                      (live_region P w))
        then [EvSave (fresh_record P w)] else [])
  /\ backing P (final (check P CHECKMODE_CHECK_ONLY w))
     = (if buffers_allocated w && negb (valid_backup P w)
           && negb (already_saved P (snd (loaded_buffer P w))
                      (live_region P w))
        then snd (save P (backing P w) (fresh_record P w))
        else backing P w)
  /\ (validateData P (snd (loaded_buffer P w)) = false ->
      already_saved P (snd (loaded_buffer P w)) (live_region P w) = false).
Proof.
  assert (Hinv : validateData P (snd (loaded_buffer P w)) = false ->
                 already_saved P (snd (loaded_buffer P w)) (live_region P w)
                 = false).
  { unfold validateData, already_saved.
    destruct (magic _ =? DATA_HEADER_MAGIC P); [|reflexivity].
    destruct (size _ =? Z.of_nat (DEVICE_KEYS_HELPER_SIZE P));
      [|reflexivity].
    destruct (sum _ =? calculateChecksum P _); [discriminate|reflexivity]. }
  split; [|split; [|split; [|exact Hinv]]];
    destruct (check_cases P CHECKMODE_CHECK_ONLY w)
      as [o Hb Hv He Hd Hk|Hb Hs Ha|Hb Hs Ha|Hb Hv Hm Hd|Hb Hv Hm Hd
          |Hb Hv Hm Hd|Hb Hv Hm Hd]; cbn [value final emitted];
    try discriminate;
    try (destruct Hs as [Hs|Hs]; [|discriminate]);
    rewrite ?Hb, ?Hs, ?Ha, ?Hv; cbn [andb negb];
    try assumption; reflexivity.
Qed.

(** C5, as stated, fails: a [load] that fills the buffer with a valid
    record of the current keys and then reports failure makes
    [check(CHECKMODE_AUTOMATIC)] skip the save. *)
Lemma check_failed_load_counterexample :
  fst (loaded_buffer grudging_platform (grudging_world (Some record_1234)))
  = false
  /\ emitted (check grudging_platform CHECKMODE_AUTOMATIC
                (grudging_world (Some record_1234)))
     = [].
Proof. split; reflexivity. Qed.

Lemma fresh_record_fields (P : Platform) (w : World P) :
  wf_world P w ->
  wf_saved P (snd (loaded_buffer P w)) ->
  magic (fresh_record P w) = DATA_HEADER_MAGIC P
  /\ size (fresh_record P w) = Z.of_nat (DEVICE_KEYS_HELPER_SIZE P)
  /\ sum (fresh_record P w) = calculateChecksum P (fresh_record P w)
  /\ keys (fresh_record P w) = live_region P w.
Proof.
  intros Hw Hr. repeat split.
  unfold fresh_record, record_to_save, memcpy. cbn [keys].
  rewrite <- (live_region_length P w Hw) at 1. rewrite firstn_all.
  rewrite skipn_all2; [apply app_nil_r|].
  unfold wf_saved in Hr. rewrite Hr. apply Nat.le_refl.
Qed.

Lemma invalid_not_already_saved (P : Platform)
    (r : DeviceKeyHelperSavedData) (onDevice : list Z) :
  validateData P r = false -> already_saved P r onDevice = false.
Proof.
  unfold validateData, already_saved.
  destruct (magic r =? DATA_HEADER_MAGIC P); [|reflexivity].
  destruct (size r =? Z.of_nat (DEVICE_KEYS_HELPER_SIZE P)); [|reflexivity].
  destruct (sum r =? calculateChecksum P r); [discriminate|reflexivity].
Qed.

(** C5, amended: when the loaded record fails [validateData], or [load]
    fails and does not leave in the buffer the very record that would be
    written, [check(CHECKMODE_AUTOMATIC)] leaves the key region alone,
    returns [true] and calls [save] once, on a record with the magic
    [DATA_HEADER_MAGIC], the size [DEVICE_KEYS_HELPER_SIZE], the checksum
    of its payload, and the key region as payload. *)
Theorem check_automatic_saves (P : Platform) (w : World P) :
  buffers_allocated w = true ->
  wf_world P w ->
  wf_saved P (snd (loaded_buffer P w)) ->
  fst (loaded_buffer P w) = false
  /\ already_saved P (snd (loaded_buffer P w)) (live_region P w) = false
  \/ fst (loaded_buffer P w) = true
     /\ validateData P (snd (loaded_buffer P w)) = false ->
  value (check P CHECKMODE_AUTOMATIC w) = true
  /\ dct P (final (check P CHECKMODE_AUTOMATIC w)) = dct P w
  /\ emitted (check P CHECKMODE_AUTOMATIC w) = [EvSave (fresh_record P w)]
  /\ backing P (final (check P CHECKMODE_AUTOMATIC w))
     = snd (save P (backing P w) (fresh_record P w))
  /\ magic (fresh_record P w) = DATA_HEADER_MAGIC P
  /\ size (fresh_record P w) = Z.of_nat (DEVICE_KEYS_HELPER_SIZE P)
  /\ sum (fresh_record P w) = calculateChecksum P (fresh_record P w)
  /\ keys (fresh_record P w) = live_region P w.
Proof.
  intros Hb Hw Hr Hcase.
  assert (Hv : valid_backup P w = false).
  { unfold valid_backup. destruct Hcase as [[-> _]|[_ ->]];
      [reflexivity|apply andb_false_r]. }
  assert (Ha : already_saved P (snd (loaded_buffer P w)) (live_region P w)
               = false).
  { destruct Hcase as [[_ H]|[_ H]];
      [exact H|now apply invalid_not_already_saved]. }
  rewrite (check_allocated P _ w Hb).
  rewrite cwb_save_path by (left; exact Hv).
  change (loaded_buffer P (with_buffers w)) with (loaded_buffer P w).
  change (live_region P (with_buffers w)) with (live_region P w).
  rewrite Ha. cbn [value final emitted].
  repeat split; try reflexivity; apply (fresh_record_fields P w Hw Hr).
Qed.

Lemma check_automatic_saves_witness :
  emitted (check (slot_platform 0x00070000) CHECKMODE_AUTOMATIC
             (slot_world 0x00070000 (Some record_bad_sum) []))
  = [EvSave record_1234].
Proof.
  assert (H := check_automatic_saves (slot_platform 0x00070000)
                 (slot_world 0x00070000 (Some record_bad_sum) [])).
  destruct H as (_ & _ & He & _).
  - reflexivity.
  - unfold wf_world. cbn. lia.
  - reflexivity.
  - right. split; reflexivity.
  - exact He.
Defined.

(** C6, as stated, fails: when the store already holds the record of the
    current keys, two calls of [check(CHECKMODE_SAVE_CURRENT)] in a row
    call [save] not once but never. *)
Lemma check_save_current_twice_counterexample :
  saves
    (emitted (check (slot_platform 0x00070000) CHECKMODE_SAVE_CURRENT
                (slot_world 0x00070000 (Some record_1234) []))
     ++ emitted
          (check (slot_platform 0x00070000) CHECKMODE_SAVE_CURRENT
             (final (check (slot_platform 0x00070000) CHECKMODE_SAVE_CURRENT
                       (slot_world 0x00070000 (Some record_1234) [])))))
  = 0%nat.
Proof. reflexivity. Qed.

Lemma fresh_record_already_saved (P : Platform) (w : World P) :
  wf_world P w ->
  already_saved P (fresh_record P w) (live_region P w) = true.
Proof.
  intros Hw. unfold already_saved.
  assert (Hm : magic (fresh_record P w) = DATA_HEADER_MAGIC P)
    by reflexivity.
  assert (Hs : size (fresh_record P w) = Z.of_nat (DEVICE_KEYS_HELPER_SIZE P))
    by reflexivity.
  assert (Hc : sum (fresh_record P w) = calculateChecksum P (fresh_record P w))
    by reflexivity.
  rewrite Hm, Hs, <- Hc, !Z.eqb_refl. cbn [andb].
  apply Z.eqb_eq, memcmp_zero_iff.
  unfold fresh_record, record_to_save, memcpy. cbn [keys].
  rewrite firstn_app, firstn_firstn, Nat.min_id.
  rewrite length_firstn, (live_region_length P w Hw), Nat.min_id.
  rewrite Nat.sub_diag. cbn [firstn]. apply app_nil_r.
Qed.

(** C6, amended: with a backing store that gives back what was saved
    last, two calls of [check(CHECKMODE_SAVE_CURRENT)] in a row call
    [save] at most once.  The second call never saves; the first saves
    exactly when the buffer [load] filled is not already the record of the
    current keys.  The key region is the same after as before. *)
Theorem check_save_current_twice (P : Platform) (w : World P) :
  faithful_store P ->
  wf_world P w ->
  buffers_allocated w = true ->
  saves (emitted (check P CHECKMODE_SAVE_CURRENT
                    (final (check P CHECKMODE_SAVE_CURRENT w)))) = 0%nat
  /\ saves (emitted (check P CHECKMODE_SAVE_CURRENT w))
     = (if already_saved P (snd (loaded_buffer P w)) (live_region P w)
        then 0%nat else 1%nat)
  /\ dct P (final (check P CHECKMODE_SAVE_CURRENT
                     (final (check P CHECKMODE_SAVE_CURRENT w))))
     = dct P w.
Proof.
  intros Hstore Hw Hb.
  rewrite (check_allocated P _ w Hb).
  rewrite cwb_save_path by (right; reflexivity).
  change (loaded_buffer P (with_buffers w)) with (loaded_buffer P w).
  change (live_region P (with_buffers w)) with (live_region P w).
  change (fresh_record P (with_buffers w)) with (fresh_record P w).
  destruct (already_saved P (snd (loaded_buffer P w)) (live_region P w))
    eqn:Ha; cbn [final emitted].
  - destruct (check_cases P CHECKMODE_SAVE_CURRENT (with_buffers w))
      as [o Hb' Hv He Hd Hk|Hb' Hs Ha'|Hb' Hs Ha'|Hb' Hv Hm Hd|Hb' Hv Hm Hd
          |Hb' Hv Hm Hd|Hb' Hv Hm Hd]; cbn [final emitted];
      try congruence; try discriminate.
    + rewrite He, Hd. repeat split.
    + repeat split.
    + change (already_saved P (snd (loaded_buffer P w)) (live_region P w)
              = false) in Ha'. congruence.
  - assert (Hl : loaded_buffer P (saved_world P (with_buffers w))
                 = (true, fresh_record P w)) by apply Hstore.
    assert (Ha2 : already_saved P
                    (snd (loaded_buffer P (saved_world P (with_buffers w))))
                    (live_region P (saved_world P (with_buffers w))) = true).
    { rewrite Hl. apply (fresh_record_already_saved P w Hw). }
    destruct (check_cases P CHECKMODE_SAVE_CURRENT
                (saved_world P (with_buffers w)))
      as [o Hb' Hv He Hd Hk|Hb' Hs Ha'|Hb' Hs Ha'|Hb' Hv Hm Hd|Hb' Hv Hm Hd
          |Hb' Hv Hm Hd|Hb' Hv Hm Hd]; cbn [final emitted];
      try congruence; try discriminate.
    + rewrite He, Hd. repeat split.
    + repeat split.
Qed.

Lemma check_save_current_twice_witness :
  saves (emitted (check (slot_platform 0x00070000) CHECKMODE_SAVE_CURRENT
                    (slot_world 0x00070000 (Some record_5678) []))) = 1%nat
  /\ saves
       (emitted
          (check (slot_platform 0x00070000) CHECKMODE_SAVE_CURRENT
             (final (check (slot_platform 0x00070000) CHECKMODE_SAVE_CURRENT
                       (slot_world 0x00070000 (Some record_5678) [])))))
     = 0%nat.
Proof.
  assert (H := check_save_current_twice (slot_platform 0x00070000)
                 (slot_world 0x00070000 (Some record_5678) [])).
  destruct H as (H2 & H1 & _).
  - intros b r buf. reflexivity.
  - unfold wf_world. cbn. lia.
  - reflexivity.
  - split; [exact H1|exact H2].
Defined.

(** ** Connectivity monitor *)

(** C9: a Connected event sets [connected], resets [failureCount] to 0
    and runs [check(CHECKMODE_SAVE_CURRENT)], whatever the state of the
    handler and of the world. *)
Theorem connected_event (P : Platform) (this : DeviceKeyHelper)
    (w : World P) :
  value (eventHandler P this cloud_status cloud_status_connected w)
  = mkHelper true 0
  /\ final (eventHandler P this cloud_status cloud_status_connected w)
     = final (check P CHECKMODE_SAVE_CURRENT w)
  /\ emitted (eventHandler P this cloud_status cloud_status_connected w)
     = emitted (check P CHECKMODE_SAVE_CURRENT w).
Proof.
  unfold eventHandler, bind, ret. cbn [value final emitted].
  repeat split. apply app_nil_r.
Qed.

Lemma recover_outcome (P : Platform) (w : World P) :
  final (recover P w) = final (check P CHECKMODE_AUTOMATIC w)
  /\ emitted (recover P w) = recovery_events P w.
Proof.
  unfold recover, recovery_events, bind, Particle_disconnect, System_reset.
  cbn [value final emitted]. split; reflexivity.
Qed.

Lemma wrap_int_small (x : Z) :
  -2147483648 <= x < 2147483648 -> wrap_int x = x.
Proof.
  intros Hx. unfold wrap_int. rewrite Z.mod_small by lia. lia.
Qed.

Lemma disconnected_counts (P : Platform) (this : DeviceKeyHelper)
    (w : World P) :
  SYSTEM_VERSION P < 0x00080000 ->
  connected this = false ->
  value (eventHandler P this cloud_status cloud_status_disconnected w)
  = mkHelper false (wrap_int (failureCount this + 1))
  /\ emitted (eventHandler P this cloud_status cloud_status_disconnected w)
     = (if wrap_int (failureCount this + 1) >=? 3
        then recovery_events P w else [])
  /\ final (eventHandler P this cloud_status cloud_status_disconnected w)
     = (if wrap_int (failureCount this + 1) >=? 3
        then final (check P CHECKMODE_AUTOMATIC w) else w).
Proof.
  intros Hver Hc. unfold eventHandler. rewrite Hc. cbn [negb].
  assert (Hv : (SYSTEM_VERSION P >=? 0x00080000) = false)
    by (rewrite Z.geb_leb; apply Z.leb_gt; exact Hver).
  rewrite Hv. cbn [failureCount connected].
  destruct (wrap_int (failureCount this + 1) >=? 3).
  - unfold bind, ret. cbn [value final emitted].
    destruct (recover_outcome P w) as [Hf He]. rewrite Hf, He.
    repeat split. apply app_nil_r.
  - repeat split.
Qed.

Lemma run_events_step (P : Platform) (this this1 this2 : DeviceKeyHelper)
    (event : system_event_t) (param : cloud_status_param)
    (rest : list (system_event_t * cloud_status_param))
    (w w1 w2 : World P) (e1 e2 es : list Event) :
  eventHandler P this event param w = mkOutcome this1 w1 e1 ->
  run_events P this1 rest w1 = mkOutcome this2 w2 e2 ->
  es = e1 ++ e2 ->
  run_events P this ((event, param) :: rest) w = mkOutcome this2 w2 es.
Proof.
  intros H1 H2 ->. cbn [run_events]. unfold bind.
  rewrite H1. cbn [value final emitted]. rewrite H2. reflexivity.
Qed.

Lemma connecting_outcome (P : Platform) (this : DeviceKeyHelper)
    (w : World P) :
  eventHandler P this cloud_status cloud_status_connecting w
  = mkOutcome (mkHelper false (failureCount this)) w [].
Proof. reflexivity. Qed.

Lemma disconnected_below_threshold (P : Platform) (this : DeviceKeyHelper)
    (w : World P) :
  SYSTEM_VERSION P < 0x00080000 ->
  connected this = false ->
  wrap_int (failureCount this + 1) < 3 ->
  eventHandler P this cloud_status cloud_status_disconnected w
  = mkOutcome (mkHelper false (wrap_int (failureCount this + 1))) w [].
Proof.
  intros Hver Hc Hlt. unfold eventHandler. rewrite Hc. cbn [negb].
  assert (Hv : (SYSTEM_VERSION P >=? 0x00080000) = false)
    by (rewrite Z.geb_leb; apply Z.leb_gt; exact Hver).
  rewrite Hv. cbn [failureCount connected].
  assert (Ht : (wrap_int (failureCount this + 1) >=? 3) = false)
    by (rewrite Z.geb_leb; apply Z.leb_gt; exact Hlt).
  rewrite Ht. reflexivity.
Qed.

Lemma disconnected_at_threshold (P : Platform) (this : DeviceKeyHelper)
    (w : World P) :
  SYSTEM_VERSION P < 0x00080000 ->
  connected this = false ->
  3 <= wrap_int (failureCount this + 1) ->
  eventHandler P this cloud_status cloud_status_disconnected w
  = mkOutcome (mkHelper false (wrap_int (failureCount this + 1)))
      (final (check P CHECKMODE_AUTOMATIC w)) (recovery_events P w).
Proof.
  intros Hver Hc Hge. unfold eventHandler. rewrite Hc. cbn [negb].
  assert (Hv : (SYSTEM_VERSION P >=? 0x00080000) = false)
    by (rewrite Z.geb_leb; apply Z.leb_gt; exact Hver).
  rewrite Hv. cbn [failureCount connected].
  assert (Ht : (wrap_int (failureCount this + 1) >=? 3) = true)
    by (rewrite Z.geb_leb; apply Z.leb_le; exact Hge).
  rewrite Ht. unfold bind, ret. cbn [value final emitted].
  destruct (recover_outcome P w) as [Hf He]. rewrite Hf, He, app_nil_r.
  reflexivity.
Qed.

(** C7: on a build without the diagnostic query, once a Connecting event
    has cleared [connected], every Disconnected event adds one to
    [failureCount], as long as the [int] is below [INT_MAX], and it runs
    the recovery sequence (disconnect request,
    [check(CHECKMODE_AUTOMATIC)], reset request) exactly when the count it
    reaches is 3 or more.  Counting from zero, Connecting followed by two
    Disconnected events leaves the count at 2 with nothing emitted and the
    world untouched; the third Disconnected event runs the recovery. *)
Theorem three_failures_recover (P : Platform) (was_connected : bool)
    (w : World P) :
  SYSTEM_VERSION P < 0x00080000 ->
  (forall (this : DeviceKeyHelper) (w' : World P),
      connected this = false ->
      -2147483648 <= failureCount this < 2147483647 ->
      value (eventHandler P this cloud_status cloud_status_disconnected w')
      = mkHelper false (failureCount this + 1)
      /\ emitted
           (eventHandler P this cloud_status cloud_status_disconnected w')
         = (if failureCount this + 1 >=? 3
            then recovery_events P w' else []))
  /\ (value (run_events P (mkHelper was_connected 0)
               [Connecting; Disconnected; Disconnected] w)
      = mkHelper false 2
      /\ emitted (run_events P (mkHelper was_connected 0)
                    [Connecting; Disconnected; Disconnected] w)
         = []
      /\ final (run_events P (mkHelper was_connected 0)
                  [Connecting; Disconnected; Disconnected] w)
         = w)
  /\ (value (run_events P (mkHelper was_connected 0)
               [Connecting; Disconnected; Disconnected; Disconnected] w)
      = mkHelper false 3
      /\ emitted (run_events P (mkHelper was_connected 0)
                    [Connecting; Disconnected; Disconnected; Disconnected] w)
         = recovery_events P w
      /\ final (run_events P (mkHelper was_connected 0)
                  [Connecting; Disconnected; Disconnected; Disconnected] w)
         = final (check P CHECKMODE_AUTOMATIC w)).
Proof.
  intros Hver.
  assert (Hv : (SYSTEM_VERSION P >=? 0x00080000) = false)
    by (rewrite Z.geb_leb; apply Z.leb_gt; exact Hver).
  assert (Hstart :
            run_events P (mkHelper was_connected 0)
              [Connecting; Disconnected; Disconnected] w
            = mkOutcome (mkHelper false 2) w []).
  { eapply run_events_step; [apply connecting_outcome| |reflexivity].
    eapply run_events_step;
      [apply disconnected_below_threshold; (assumption || reflexivity)
      | |reflexivity].
    eapply run_events_step;
      [apply disconnected_below_threshold; (assumption || reflexivity)
      | |reflexivity].
    reflexivity. }
  assert (Hthird :
            run_events P (mkHelper was_connected 0)
              [Connecting; Disconnected; Disconnected; Disconnected] w
            = mkOutcome (mkHelper false 3)
                (final (check P CHECKMODE_AUTOMATIC w))
                (recovery_events P w)).
  { eapply run_events_step; [apply connecting_outcome| |reflexivity].
    eapply run_events_step;
      [apply disconnected_below_threshold; (assumption || reflexivity)
      | |reflexivity].
    eapply run_events_step;
      [apply disconnected_below_threshold; (assumption || reflexivity)
      | |reflexivity].
    eapply run_events_step;
      [apply disconnected_at_threshold;
       (assumption || reflexivity || discriminate)
      |reflexivity|].
    cbn [app]. symmetry. apply app_nil_r. }
  split; [|split].
  - intros this w' Hc Hint.
    destruct (disconnected_counts P this w' Hver Hc) as (H1 & H2 & _).
    rewrite wrap_int_small in H1, H2 by lia.
    split; assumption.
  - rewrite Hstart. repeat split.
  - rewrite Hthird. repeat split.
Qed.

Lemma three_failures_recover_witness :
  emitted (run_events (slot_platform 0x00070000) (mkHelper true 0)
             [Connecting; Disconnected; Disconnected; Disconnected]
             (slot_world 0x00070000 (Some record_5678) []))
  = [EvDisconnect; EvDctWrite [5; 6; 7; 8] 2 4; EvReset; EvReset].
Proof.
  assert (H := three_failures_recover (slot_platform 0x00070000) true
                 (slot_world 0x00070000 (Some record_5678) [])).
  destruct H as (_ & _ & _ & He & _).
  - reflexivity.
  - exact He.
Defined.

(** C8, as stated, fails: after a Disconnected event received while
    [connected] is set the flag is still set, and Disconnected events that
    follow one another after a Connected event do not count as failures. *)
Lemma disconnected_while_connected_counterexample :
  connected
    (value (eventHandler (slot_platform 0x00070000) (mkHelper true 0)
              cloud_status cloud_status_disconnected
              (slot_world 0x00070000 (Some record_1234) [])))
  <> false
  /\ value (run_events (slot_platform 0x00070000) (mkHelper false 0)
              [Connected; Disconnected; Disconnected; Disconnected;
               Disconnected]
              (slot_world 0x00070000 (Some record_1234) []))
     = mkHelper true 0.
Proof. split; [discriminate|reflexivity]. Qed.

(** C8, amended: a Disconnected event received while [connected] is set
    changes nothing, however many of them follow one another: the flag
    stays set (only a Connecting event clears it), [failureCount] keeps
    its value, nothing is emitted and the world is untouched.  A
    Disconnected event changes [failureCount] only when it arrives while
    the flag is clear. *)
Theorem disconnected_while_connected (P : Platform) (this : DeviceKeyHelper)
    (w : World P) (n : nat) :
  connected this = true ->
  (value (run_events P this (repeat Disconnected n) w) = this
   /\ final (run_events P this (repeat Disconnected n) w) = w
   /\ emitted (run_events P this (repeat Disconnected n) w) = [])
  /\ (forall (this' : DeviceKeyHelper) (w' : World P),
         failureCount
           (value (eventHandler P this' cloud_status
                     cloud_status_disconnected w'))
         <> failureCount this' ->
         connected this' = false).
Proof.
  intros Hc. split.
  - induction n as [|n IH]; [repeat split|].
    assert (Hstep : eventHandler P this cloud_status
                      cloud_status_disconnected w = mkOutcome this w [])
      by (unfold eventHandler; rewrite Hc; reflexivity).
    destruct IH as (H1 & H2 & H3).
    destruct (run_events P this (repeat Disconnected n) w)
      as [v f e] eqn:Hrest.
    cbn [value final emitted] in H1, H2, H3. subst v f e.
    cbn [repeat]. unfold Disconnected at 1 3 5.
    rewrite (run_events_step P this this this _ _ _ w w w [] [] []
               Hstep Hrest eq_refl).
    repeat split.
  - intros this' w'. unfold eventHandler.
    destruct (connected this'); [|reflexivity].
    cbn. congruence.
Qed.

Lemma disconnected_while_connected_witness :
  value (run_events (slot_platform 0x00070000) (mkHelper true 0)
           (repeat Disconnected 5)
           (slot_world 0x00070000 (Some record_5678) []))
  = mkHelper true 0.
Proof.
  assert (H := disconnected_while_connected (slot_platform 0x00070000)
                 (mkHelper true 0)
                 (slot_world 0x00070000 (Some record_5678) []) 5).
  destruct H as [(Hv & _) _].
  - reflexivity.
  - exact Hv.
Defined.

(** ** The code on concrete inputs *)

Example checksum_wraps :
  calculateChecksum wide_platform (mkSavedData 0 0 0 (repeat 255 300))
  = 10964.
Proof. vm_compute. reflexivity. Qed.

Example validateData_rejects_bad_sum :
  validateData (slot_platform 0x00070000) record_bad_sum = false.
Proof. reflexivity. Qed.

Example check_only_reports_divergence :
  value (check (slot_platform 0x00070000) CHECKMODE_CHECK_ONLY
           (slot_world 0x00070000 (Some record_5678) [])) = false
  /\ emitted (check (slot_platform 0x00070000) CHECKMODE_CHECK_ONLY
                (slot_world 0x00070000 (Some record_5678) [])) = [].
Proof. split; reflexivity. Qed.

Example check_without_memory :
  value (check (slot_platform 0x00070000) CHECKMODE_AUTOMATIC
           (slot_world 0x00070000 (Some record_5678) [true; false])) = true
  /\ emitted (check (slot_platform 0x00070000) CHECKMODE_AUTOMATIC
                (slot_world 0x00070000 (Some record_5678) [true; false]))
     = [].
Proof. split; reflexivity. Qed.

Example diag_value_read :
  value (getSystemDiagValue (slot_platform 0x00080000) 0
           (diag_world 10 None)) = (true, 10).
Proof. reflexivity. Qed.

Example keys_error_recovers_at_once :
  emitted (run_events (slot_platform 0x00080000) (mkHelper false 0)
             [Connecting; Disconnected]
             (diag_world 10 (Some record_5678)))
  = [EvDisconnect; EvDctWrite [5; 6; 7; 8] 2 4; EvReset; EvReset].
Proof. reflexivity. Qed.

Example other_error_is_ignored :
  emitted (run_events (slot_platform 0x00080000) (mkHelper false 0)
             [Connecting; Disconnected; Disconnected; Disconnected]
             (diag_world 3 (Some record_5678)))
  = [].
Proof. reflexivity. Qed.

(** * Further properties *)

(** ** The checksum *)

Lemma byte_sum_app (a b : list Z) :
  byte_sum (a ++ b) = byte_sum a + byte_sum b.
Proof.
  induction a as [|x a IH]; cbn; [reflexivity|].
  fold (byte_sum (a ++ b)). fold (byte_sum a). rewrite IH. lia.
Qed.

Lemma byte_sum_permutation (a b : list Z) :
  Permutation a b -> byte_sum a = byte_sum b.
Proof.
  unfold byte_sum.
  induction 1 as [|x a b _ IH|x y a|a b c _ IH1 _ IH2]; cbn in *; lia.
Qed.

Lemma calculateChecksum_wf (P : Platform) (r : DeviceKeyHelperSavedData) :
  wf_saved P r -> calculateChecksum P r = byte_sum (keys r) mod 65536.
Proof.
  intros Hwf. rewrite calculateChecksum_sum. unfold wf_saved in Hwf.
  rewrite <- Hwf, firstn_all. reflexivity.
Qed.

(** X1: the checksum is a 16-bit value, so a record whose [sum] member
    lies outside 0..65535 is never accepted. *)
Theorem calculateChecksum_range (P : Platform)
    (r : DeviceKeyHelperSavedData) :
  0 <= calculateChecksum P r < 65536
  /\ (validateData P r = true -> 0 <= sum r < 65536).
Proof.
  assert (H : 0 <= calculateChecksum P r < 65536)
    by (rewrite calculateChecksum_sum; apply Z.mod_pos_bound; lia).
  split; [exact H|]. intros Hv. apply validateData_true in Hv.
  destruct Hv as (_ & _ & ->). exact H.
Qed.

(** X2: the checksum does not see the order of the bytes: two records
    with the same header whose payloads are permutations of one another
    are accepted or rejected together. *)
Theorem validateData_permutation (P : Platform)
    (r : DeviceKeyHelperSavedData) (ks : list Z) :
  wf_saved P r ->
  Permutation (keys r) ks ->
  calculateChecksum P (with_keys r ks) = calculateChecksum P r
  /\ validateData P (with_keys r ks) = validateData P r.
Proof.
  intros Hwf Hperm.
  assert (Hwf' : wf_saved P (with_keys r ks)).
  { unfold wf_saved in *. cbn. rewrite <- (Permutation_length Hperm).
    exact Hwf. }
  assert (Hc : calculateChecksum P (with_keys r ks) = calculateChecksum P r).
  { rewrite (calculateChecksum_wf P _ Hwf'), (calculateChecksum_wf P _ Hwf).
    cbn [keys with_keys]. now rewrite (byte_sum_permutation _ _ Hperm). }
  split; [exact Hc|]. unfold validateData. rewrite Hc. reflexivity.
Qed.

Lemma validateData_permutation_witness :
  validateData (slot_platform 0x00070000)
    (with_keys record_1234 [4; 3; 2; 1]) = true.
Proof.
  assert (H := validateData_permutation (slot_platform 0x00070000)
                 record_1234 [4; 3; 2; 1]).
  destruct H as [_ H].
  - reflexivity.
  - exact (Permutation_rev [1; 2; 3; 4]).
  - rewrite H. reflexivity.
Defined.

Lemma byte_sum_set_byte (ks : list Z) (i : nat) (b : Z) :
  (i < length ks)%nat ->
  byte_sum (set_byte ks i b) = byte_sum ks - nth i ks 0 + b.
Proof.
  unfold set_byte. intros Hi.
  rewrite <- (firstn_skipn i ks) at 3.
  rewrite !byte_sum_app.
  assert (Hs : skipn i ks = nth i ks 0 :: skipn (S i) ks).
  { revert i Hi. induction ks as [|k ks IH]; intros i Hi; cbn in Hi; [lia|].
    destruct i as [|i]; [reflexivity|].
    change (skipn i ks = nth i ks 0 :: skipn (S i) ks).
    apply IH. lia. }
  rewrite Hs. unfold byte_sum. cbn [fold_right]. lia.
Qed.

Lemma set_byte_length (ks : list Z) (i : nat) (b : Z) :
  (i < length ks)%nat -> length (set_byte ks i b) = length ks.
Proof.
  intros Hi. unfold set_byte.
  rewrite length_app, length_firstn. cbn [length].
  rewrite length_skipn. lia.
Qed.

(** X3: one changed byte is always noticed: a record that is accepted is
    rejected once any single byte of its payload holds another value. *)
Theorem validateData_detects_one_byte (P : Platform)
    (r : DeviceKeyHelperSavedData) (i : nat) (b : Z) :
  wf_saved P r ->
  validateData P r = true ->
  (i < DEVICE_KEYS_HELPER_SIZE P)%nat ->
  0 <= nth i (keys r) 0 < 256 ->
  0 <= b < 256 ->
  b <> nth i (keys r) 0 ->
  validateData P (with_keys r (set_byte (keys r) i b)) = false.
Proof.
  intros Hwf Hv Hi Hold Hb Hne.
  assert (Hlen : (i < length (keys r))%nat)
    by (unfold wf_saved in Hwf; lia).
  assert (Hwf' : wf_saved P (with_keys r (set_byte (keys r) i b))).
  { unfold wf_saved in *. cbn. now rewrite set_byte_length. }
  apply validateData_true in Hv. destruct Hv as (_ & _ & Hs).
  destruct (validateData P (with_keys r (set_byte (keys r) i b))) eqn:Hv';
    [|reflexivity].
  apply validateData_true in Hv'. destruct Hv' as (_ & _ & Hs').
  cbn [sum with_keys] in Hs'.
  rewrite (calculateChecksum_wf P _ Hwf') in Hs'.
  rewrite (calculateChecksum_wf P _ Hwf) in Hs.
  cbn [keys with_keys] in Hs'. rewrite byte_sum_set_byte in Hs' by exact Hlen.
  rewrite Hs in Hs'. exfalso.
  set (x := byte_sum (keys r)) in *. set (o := nth i (keys r) 0) in *.
  clearbody x o. clear - Hs' Hold Hb Hne.
  Z.div_mod_to_equations. lia.
Qed.

Lemma validateData_detects_one_byte_witness :
  validateData (slot_platform 0x00070000)
    (with_keys record_1234 [1; 2; 7; 4]) = false.
Proof.
  apply (validateData_detects_one_byte (slot_platform 0x00070000)
           record_1234 2 7).
  - reflexivity.
  - reflexivity.
  - cbn. lia.
  - cbn. lia.
  - lia.
  - cbn. discriminate.
Defined.

(** ** check: what it saves, what it keeps, where it settles *)

Lemma fresh_record_valid (P : Platform) (w : World P) :
  validateData P (fresh_record P w) = true.
Proof. apply validateData_true. repeat split. Qed.

Lemma in_sync_ext (P : Platform) (w1 w2 : World P) :
  dct P w1 = dct P w2 -> backing P w1 = backing P w2 ->
  in_sync P w1 = in_sync P w2.
Proof.
  intros Hd Hb. unfold in_sync, loaded_buffer, live_region.
  rewrite Hd, Hb. reflexivity.
Qed.

Lemma in_sync_not_diverged (P : Platform) (w : World P) :
  in_sync P w = true -> diverged P w = false.
Proof.
  unfold in_sync, already_saved, diverged. intros H.
  apply andb_prop in H. destruct H as [_ H].
  apply Z.eqb_eq, memcmp_zero_iff in H.
  apply negb_false_iff, Z.eqb_eq, memcmp_zero_iff. congruence.
Qed.

Lemma valid_same_in_sync (P : Platform) (w : World P) :
  valid_backup P w = true -> diverged P w = false -> in_sync P w = true.
Proof.
  unfold valid_backup, diverged, in_sync, already_saved. intros Hv Hd.
  apply andb_prop in Hv. destruct Hv as [_ Hv].
  apply validateData_true in Hv. destruct Hv as (-> & -> & <-).
  rewrite !Z.eqb_refl. cbn [andb].
  apply negb_false_iff, Z.eqb_eq, memcmp_zero_iff in Hd.
  apply Z.eqb_eq, memcmp_zero_iff. congruence.
Qed.

(** With the backup in step with the table, [check] does nothing. *)
Lemma check_when_in_sync (P : Platform) (mode : CheckMode) (w : World P) :
  in_sync P w = true ->
  value (check P mode w) = true
  /\ emitted (check P mode w) = []
  /\ dct P (final (check P mode w)) = dct P w
  /\ backing P (final (check P mode w)) = backing P w.
Proof.
  intros Hs. assert (Hd := in_sync_not_diverged P w Hs).
  unfold in_sync in Hs.
  destruct (check_cases P mode w)
    as [o Hb Hv He Hdct Hk|Hb Hc Ha|Hb Hc Ha|Hb Hv Hm Hd'|Hb Hv Hm Hd'
        |Hb Hv Hm Hd'|Hb Hv Hm Hd']; cbn [value final emitted];
    try congruence; repeat split; assumption.
Qed.

(** After a [check] that saved, restored or found nothing to do, the
    backup is in step with the table. *)
Lemma check_leaves_in_sync (P : Platform) (mode : CheckMode) (w : World P) :
  faithful_store P ->
  wf_world P w ->
  wf_saved P (snd (loaded_buffer P w)) ->
  buffers_allocated w = true ->
  mode <> CHECKMODE_CHECK_ONLY ->
  in_sync P (final (check P mode w)) = true.
Proof.
  intros Hstore Hw Hr Hb Hmode.
  assert (Hrestored :
            valid_backup P w = true ->
            in_sync P (restored_world P (with_buffers w)) = true).
  { intros Hv. unfold in_sync, already_saved.
    change (loaded_buffer P (restored_world P (with_buffers w)))
      with (loaded_buffer P w).
    assert (Hlive : live_region P (restored_world P (with_buffers w))
                    = keys (snd (loaded_buffer P w))).
    { unfold live_region, restored_world. cbn [dct].
      change (loaded_buffer P (with_buffers w)) with (loaded_buffer P w).
      change (dct P (with_buffers w)) with (dct P w).
      apply dct_region_written; [|exact Hr]. unfold wf_world in Hw. lia. }
    rewrite Hlive. unfold valid_backup in Hv.
    apply andb_prop in Hv. destruct Hv as [_ Hv].
    apply validateData_true in Hv. destruct Hv as (-> & -> & <-).
    rewrite !Z.eqb_refl. cbn [andb].
    apply Z.eqb_eq, memcmp_zero_iff. reflexivity. }
  destruct (check_cases P mode w)
    as [o Hb' Hv He Hdct Hk|Hb' Hc Ha|Hb' Hc Ha|Hb' Hv Hm Hd|Hb' Hv Hm Hd
        |Hb' Hv Hm Hd|Hb' Hv Hm Hd]; cbn [final];
    try congruence; auto.
  - unfold in_sync.
    assert (Hl : loaded_buffer P (saved_world P (with_buffers w))
                 = (true, fresh_record P w)) by apply Hstore.
    rewrite Hl. apply (fresh_record_already_saved P w Hw).
  - apply (valid_same_in_sync P w Hv Hd).
Qed.

(** X4: whatever the mode, a record [check] hands to [save] passes
    [validateData], and its payload is the key region of the table. *)
Theorem check_saves_valid_record (P : Platform) (mode : CheckMode)
    (w : World P) (r : DeviceKeyHelperSavedData) :
  wf_world P w ->
  In (EvSave r) (emitted (check P mode w)) ->
  validateData P r = true
  /\ firstn (DEVICE_KEYS_HELPER_SIZE P) (keys r) = live_region P w.
Proof.
  intros Hw Hin.
  assert (Hr : r = fresh_record P w).
  { destruct (check_cases P mode w)
      as [o Hb Hv He Hdct Hk|Hb Hc Ha|Hb Hc Ha|Hb Hv Hm Hd|Hb Hv Hm Hd
          |Hb Hv Hm Hd|Hb Hv Hm Hd]; cbn [emitted] in Hin.
    - rewrite He in Hin. destruct Hin.
    - destruct Hin.
    - destruct Hin as [Hin|[]]. congruence.
    - destruct Hin.
    - destruct Hin.
    - destruct Hin as [Hin|[]]. discriminate.
    - destruct Hin as [Hin|[Hin|[]]]; discriminate. }
  subst r. split; [apply fresh_record_valid|].
  assert (Ha := fresh_record_already_saved P w Hw).
  unfold already_saved in Ha. apply andb_prop in Ha. destruct Ha as [_ Ha].
  apply Z.eqb_eq, memcmp_zero_iff in Ha.
  rewrite Ha. apply firstn_live_region.
Qed.

Lemma check_saves_valid_record_witness :
  validateData (slot_platform 0x00070000) record_1234 = true
  /\ firstn 4 (keys record_1234) = [1; 2; 3; 4].
Proof.
  apply (check_saves_valid_record (slot_platform 0x00070000)
           CHECKMODE_SAVE_CURRENT
           (slot_world 0x00070000 (Some record_5678) []) record_1234).
  - unfold wf_world. cbn. lia.
  - left. reflexivity.
Defined.

Lemma restored_table_frame (table data : list Z) (offset len : nat) :
  (offset + len <= length table)%nat ->
  length data = len ->
  length (firstn offset table ++ firstn len data
            ++ skipn (offset + len) table) = length table
  /\ (forall i : nat,
         (i < offset \/ offset + len <= i)%nat ->
         nth i (firstn offset table ++ firstn len data
                  ++ skipn (offset + len) table) 0
         = nth i table 0).
Proof.
  intros Hin Hlen.
  assert (HA : length (firstn offset table) = offset)
    by (rewrite length_firstn; lia).
  assert (HB : length (firstn len data) = len)
    by (rewrite length_firstn; lia).
  split.
  - rewrite !length_app, HA, HB, length_skipn. lia.
  - intros i [Hi|Hi].
    + rewrite app_nth1 by lia.
      rewrite <- (firstn_skipn offset table) at 2.
      rewrite app_nth1 by lia. reflexivity.
    + rewrite app_nth2 by lia. rewrite app_nth2 by lia.
      rewrite HA, HB.
      rewrite <- (firstn_skipn (offset + len) table) at 2.
      rewrite app_nth2 by (rewrite length_firstn; lia).
      rewrite length_firstn. f_equal. lia.
Qed.

Lemma check_keeps_rest (P : Platform) (mode : CheckMode) (w : World P) :
  wf_world P w ->
  wf_saved P (snd (loaded_buffer P w)) ->
  length (dct P (final (check P mode w))) = length (dct P w)
  /\ (forall i : nat,
         (i < DEVICE_KEYS_HELPER_OFFSET P
          \/ DEVICE_KEYS_HELPER_OFFSET P + DEVICE_KEYS_HELPER_SIZE P <= i)%nat ->
         nth i (dct P (final (check P mode w))) 0 = nth i (dct P w) 0).
Proof.
  intros Hw Hr.
  destruct (restored_table_frame (dct P w) (keys (snd (loaded_buffer P w)))
              (DEVICE_KEYS_HELPER_OFFSET P) (DEVICE_KEYS_HELPER_SIZE P)
              Hw Hr) as [Hlen Hnth].
  destruct (check_cases P mode w)
    as [o Hb Hv He Hdct Hk|Hb Hc Ha|Hb Hc Ha|Hb Hv Hm Hd|Hb Hv Hm Hd
        |Hb Hv Hm Hd|Hb Hv Hm Hd]; cbn [final];
    try (split; reflexivity).
  - rewrite Hdct. split; reflexivity.
  - split; [exact Hlen|exact Hnth].
  - split; [exact Hlen|exact Hnth].
Qed.

(** X5: [check] touches nothing of the configuration table but the key
    region: the table keeps its length and every byte before
    [DEVICE_KEYS_HELPER_OFFSET] or from
    [DEVICE_KEYS_HELPER_OFFSET + DEVICE_KEYS_HELPER_SIZE] on. *)
Theorem check_frame (P : Platform) (mode : CheckMode) (w : World P)
    (i : nat) :
  wf_world P w ->
  wf_saved P (snd (loaded_buffer P w)) ->
  (i < DEVICE_KEYS_HELPER_OFFSET P
   \/ DEVICE_KEYS_HELPER_OFFSET P + DEVICE_KEYS_HELPER_SIZE P <= i)%nat ->
  length (dct P (final (check P mode w))) = length (dct P w)
  /\ nth i (dct P (final (check P mode w))) 0 = nth i (dct P w) 0.
Proof.
  intros Hw Hr Hi.
  destruct (check_keeps_rest P mode w Hw Hr) as [Hlen Hnth].
  split; [exact Hlen|exact (Hnth i Hi)].
Qed.

Lemma check_frame_witness :
  nth 6 (dct (slot_platform 0x00070000)
           (final (check (slot_platform 0x00070000) CHECKMODE_AUTOMATIC
                     (slot_world 0x00070000 (Some record_5678) [])))) 0
  = 9.
Proof.
  assert (H := check_frame (slot_platform 0x00070000) CHECKMODE_AUTOMATIC
                 (slot_world 0x00070000 (Some record_5678) []) 6).
  destruct H as [_ H].
  - unfold wf_world. cbn. lia.
  - reflexivity.
  - right. cbn. lia.
  - rewrite H. reflexivity.
Defined.

(** X6: [check] settles.  On a backing store that gives back what was
    saved last, after a [check] in any mode but [CHECKMODE_CHECK_ONLY] an
    immediate second [check], in any mode, returns [true] and neither
    saves, nor writes the table, nor asks for a reset. *)
Theorem check_settles (P : Platform) (mode1 mode2 : CheckMode)
    (w : World P) :
  faithful_store P ->
  wf_world P w ->
  wf_saved P (snd (loaded_buffer P w)) ->
  buffers_allocated w = true ->
  mode1 <> CHECKMODE_CHECK_ONLY ->
  value (check P mode2 (final (check P mode1 w))) = true
  /\ emitted (check P mode2 (final (check P mode1 w))) = [].
Proof.
  intros Hstore Hw Hr Hb Hmode.
  assert (Hs := check_leaves_in_sync P mode1 w Hstore Hw Hr Hb Hmode).
  destruct (check_when_in_sync P mode2 _ Hs) as (Hv & He & _).
  split; assumption.
Qed.

Lemma check_settles_witness :
  value (check (slot_platform 0x00070000) CHECKMODE_CHECK_ONLY
           (final (check (slot_platform 0x00070000) CHECKMODE_AUTOMATIC
                     (slot_world 0x00070000 (Some record_5678) []))))
  = true.
Proof.
  assert (H := check_settles (slot_platform 0x00070000)
                 CHECKMODE_AUTOMATIC CHECKMODE_CHECK_ONLY
                 (slot_world 0x00070000 (Some record_5678) [])).
  destruct H as [H _].
  - intros b r buf. reflexivity.
  - unfold wf_world. cbn. lia.
  - reflexivity.
  - reflexivity.
  - discriminate.
  - exact H.
Defined.

(** X7: when the record that loads passes [validateData] and its payload
    is the key region, [check] in every mode returns [true], emits
    nothing, and leaves the table and the backing store as they were. *)
Theorem check_unchanged (P : Platform) (mode : CheckMode) (w : World P)
    (r : DeviceKeyHelperSavedData) :
  loaded_buffer P w = (true, r) ->
  validateData P r = true ->
  firstn (DEVICE_KEYS_HELPER_SIZE P) (keys r) = live_region P w ->
  value (check P mode w) = true
  /\ emitted (check P mode w) = []
  /\ dct P (final (check P mode w)) = dct P w
  /\ backing P (final (check P mode w)) = backing P w.
Proof.
  intros Hl Hv Hk. apply check_when_in_sync.
  apply valid_same_in_sync.
  - unfold valid_backup. rewrite Hl. cbn. now rewrite Hv.
  - apply negb_false_iff, Z.eqb_eq, memcmp_zero_iff.
    rewrite Hl. cbn [snd]. rewrite firstn_live_region. congruence.
Qed.

Lemma check_unchanged_witness :
  emitted (check (slot_platform 0x00070000) CHECKMODE_AUTOMATIC
             (slot_world 0x00070000 (Some record_1234) [])) = [].
Proof.
  assert (H := check_unchanged (slot_platform 0x00070000)
                 CHECKMODE_AUTOMATIC
                 (slot_world 0x00070000 (Some record_1234) []) record_1234).
  destruct H as (_ & H & _).
  - reflexivity.
  - reflexivity.
  - reflexivity.
  - exact H.
Defined.

(** X8: one call of [check] does at most one thing to the outside: it
    calls [save] once, or writes the key region once, or neither, never
    both.  It never asks the cloud to disconnect, and it asks for a reset
    only in [CHECKMODE_AUTOMATIC], right after writing the key region. *)
Theorem check_one_action (P : Platform) (mode : CheckMode) (w : World P) :
  (saves (emitted (check P mode w))
   + length (filter is_dct_write (emitted (check P mode w))) <= 1)%nat
  /\ ~ In EvDisconnect (emitted (check P mode w))
  /\ (In EvReset (emitted (check P mode w)) ->
      mode = CHECKMODE_AUTOMATIC
      /\ emitted (check P mode w) = [restore_event P w; EvReset]).
Proof.
  destruct (check_cases P mode w)
    as [o Hb Hv He Hdct Hk|Hb Hc Ha|Hb Hc Ha|Hb Hv Hm Hd|Hb Hv Hm Hd
        |Hb Hv Hm Hd|Hb Hv Hm Hd]; cbn [emitted];
    try rewrite He; unfold saves; cbn;
    (split; [lia|split; [intuition discriminate|]]);
    try (intros []; discriminate);
    try (intros [H|[]]; discriminate).
  intros _. split; [assumption|reflexivity].
Qed.

(** X9: [check(CHECKMODE_SAVE_CURRENT)] never restores: it returns
    [true], leaves the table as it was even when a valid backup differs
    from it, and at most saves the record of the current keys. *)
Theorem check_save_current_effects (P : Platform) (w : World P) :
  value (check P CHECKMODE_SAVE_CURRENT w) = true
  /\ dct P (final (check P CHECKMODE_SAVE_CURRENT w)) = dct P w
  /\ (emitted (check P CHECKMODE_SAVE_CURRENT w) = []
      \/ emitted (check P CHECKMODE_SAVE_CURRENT w)
         = [EvSave (fresh_record P w)]).
Proof.
  destruct (check_cases P CHECKMODE_SAVE_CURRENT w)
    as [o Hb Hv He Hdct Hk|Hb Hc Ha|Hb Hc Ha|Hb Hv Hm Hd|Hb Hv Hm Hd
        |Hb Hv Hm Hd|Hb Hv Hm Hd]; cbn [value final emitted];
    try congruence; try discriminate; auto.
Qed.

(** X10: when [load] fails and leaves the zeroed buffer alone, as on a
    store that holds nothing yet, [check] in every mode, also
    [CHECKMODE_CHECK_ONLY], returns [true], leaves the table alone and
    saves a valid record whose payload is the key region. *)
Theorem check_first_run (P : Platform) (mode : CheckMode) (w : World P) :
  buffers_allocated w = true ->
  wf_world P w ->
  loaded_buffer P w = (false, saved_zero P) ->
  DATA_HEADER_MAGIC P <> 0 ->
  value (check P mode w) = true
  /\ emitted (check P mode w) = [EvSave (fresh_record P w)]
  /\ dct P (final (check P mode w)) = dct P w
  /\ validateData P (fresh_record P w) = true
  /\ keys (fresh_record P w) = live_region P w.
Proof.
  intros Hb Hw Hl Hmagic.
  assert (Hv : valid_backup P w = false)
    by (unfold valid_backup; rewrite Hl; reflexivity).
  assert (Ha : already_saved P (snd (loaded_buffer P w)) (live_region P w)
               = false).
  { rewrite Hl. unfold already_saved. cbn [snd magic saved_zero].
    destruct (Z.eqb_spec 0 (DATA_HEADER_MAGIC P)); [congruence|reflexivity]. }
  assert (Hr : wf_saved P (snd (loaded_buffer P w)))
    by (rewrite Hl; unfold wf_saved; cbn; apply repeat_length).
  rewrite (check_allocated P _ w Hb).
  rewrite cwb_save_path by (left; exact Hv).
  change (loaded_buffer P (with_buffers w)) with (loaded_buffer P w).
  change (live_region P (with_buffers w)) with (live_region P w).
  rewrite Ha. cbn [value final emitted].
  repeat split; try reflexivity;
    [apply fresh_record_valid|apply (fresh_record_fields P w Hw Hr)].
Qed.

Lemma check_first_run_witness :
  emitted (check (slot_platform 0x00070000) CHECKMODE_CHECK_ONLY
             (slot_world 0x00070000 None []))
  = [EvSave record_1234].
Proof.
  assert (H := check_first_run (slot_platform 0x00070000)
                 CHECKMODE_CHECK_ONLY (slot_world 0x00070000 None [])).
  destruct H as (_ & H & _).
  - reflexivity.
  - unfold wf_world. cbn. lia.
  - reflexivity.
  - cbn. discriminate.
  - exact H.
Defined.

(** X11: when either buffer cannot be allocated, [check] gives up
    quietly: it returns [true], calls neither [save] nor any platform
    function, and leaves the table and the backing store as they were,
    even when a valid backup differs from the key region. *)
Theorem check_out_of_memory (P : Platform) (mode : CheckMode)
    (w : World P) :
  hd true (heap P w) = false
  \/ hd true (tl (heap P w)) = false ->
  value (check P mode w) = true
  /\ emitted (check P mode w) = []
  /\ dct P (final (check P mode w)) = dct P w
  /\ backing P (final (check P mode w)) = backing P w.
Proof.
  intros H. apply check_without_buffers. unfold buffers_allocated.
  destruct H as [-> | ->]; [reflexivity|apply andb_false_r].
Qed.

Lemma check_out_of_memory_witness :
  value (check (slot_platform 0x00070000) CHECKMODE_AUTOMATIC
           (slot_world 0x00070000 (Some record_5678) [true; false]))
  = true
  /\ emitted (check (slot_platform 0x00070000) CHECKMODE_AUTOMATIC
                (slot_world 0x00070000 (Some record_5678) [true; false]))
     = [].
Proof.
  assert (H := check_out_of_memory (slot_platform 0x00070000)
                 CHECKMODE_AUTOMATIC
                 (slot_world 0x00070000 (Some record_5678) [true; false])).
  destruct H as (Hv & He & _).
  - right. reflexivity.
  - split; assumption.
Defined.

(** ** The event handler on every build *)

Lemma version_geb_false (P : Platform) :
  SYSTEM_VERSION P < 0x00080000 ->
  (SYSTEM_VERSION P >=? 0x00080000) = false.
Proof. intros H. rewrite Z.geb_leb. apply Z.leb_gt. exact H. Qed.

Lemma version_geb_true (P : Platform) :
  0x00080000 <= SYSTEM_VERSION P ->
  (SYSTEM_VERSION P >=? 0x00080000) = true.
Proof. intros H. rewrite Z.geb_leb. apply Z.leb_le. exact H. Qed.

Lemma disconnected_with_diag_outcome (P : Platform) (this : DeviceKeyHelper)
    (w : World P) :
  0x00080000 <= SYSTEM_VERSION P ->
  connected this = false ->
  eventHandler P this cloud_status cloud_status_disconnected w
  = if fst (value (getSystemDiagValue P
                     (DIAG_ID_CLOUD_CONNECTION_ERROR_CODE P) w))
       && ((snd (value (getSystemDiagValue P
                          (DIAG_ID_CLOUD_CONNECTION_ERROR_CODE P) w)) =? 26)
           || (snd (value (getSystemDiagValue P
                             (DIAG_ID_CLOUD_CONNECTION_ERROR_CODE P) w))
               =? 10))
    then mkOutcome this (final (check P CHECKMODE_AUTOMATIC w))
           (recovery_events P w)
    else mkOutcome this w [].
Proof.
  intros Hver Hc. unfold eventHandler. rewrite Hc. cbn [negb].
  unfold getSystemDiagValue. rewrite (version_geb_true P Hver).
  unfold bind at 1. cbn [value final emitted].
  set (d := fold_left appender _ _).
  destruct (diag_offset d =? 10)%nat; cbn [fst snd andb]; [|reflexivity].
  destruct ((int32_of_bytes (firstn 4 (skipn 6 (diag_b d))) =? 26)
            || (int32_of_bytes (firstn 4 (skipn 6 (diag_b d))) =? 10));
    [|reflexivity].
  unfold bind, ret. cbn [value final emitted app].
  destruct (recover_outcome P w) as [Hf He]. rewrite Hf, He, app_nil_r.
  reflexivity.
Qed.

Lemma eventHandler_cases (P : Platform) (this : DeviceKeyHelper)
    (event : system_event_t) (param : cloud_status_param) (w : World P) :
  handler_case P this w (eventHandler P this event param w).
Proof.
  destruct event as [|code]; [|apply handler_ignores].
  destruct param as [| | |code];
    [apply handler_connecting| | |apply handler_ignores].
  - apply handler_connected; unfold eventHandler, bind, ret;
      cbn [value final emitted]; [reflexivity|reflexivity|apply app_nil_r].
  - destruct (connected this) eqn:Hc;
      [unfold eventHandler; rewrite Hc; apply handler_ignores|].
    destruct (Z.lt_ge_cases (SYSTEM_VERSION P) 0x00080000) as [Hver|Hver].
    + destruct (Z.lt_ge_cases (wrap_int (failureCount this + 1)) 3)
        as [Hlt|Hge].
      * rewrite disconnected_below_threshold by assumption.
        now apply handler_counts.
      * rewrite disconnected_at_threshold by assumption.
        now apply handler_recovers_count.
    + rewrite disconnected_with_diag_outcome by assumption.
      destruct (_ && _); [now apply handler_recovers_diag|].
      apply handler_ignores.
Qed.

Lemma run_events_value (P : Platform) (this : DeviceKeyHelper)
    (event : system_event_t) (param : cloud_status_param)
    (rest : list (system_event_t * cloud_status_param)) (w : World P) :
  value (run_events P this ((event, param) :: rest) w)
  = value (run_events P (value (eventHandler P this event param w)) rest
             (final (eventHandler P this event param w)))
  /\ final (run_events P this ((event, param) :: rest) w)
     = final (run_events P (value (eventHandler P this event param w)) rest
                (final (eventHandler P this event param w))).
Proof. split; reflexivity. Qed.

(** X12: the members of the handler keep their invariant over every
    sequence of events, on every build, as long as the [int] cannot
    overflow (the count at the start plus the number of events is at most
    [INT_MAX]): [failureCount] is never negative, it grows by at most one
    per event, and it is zero whenever [connected] is set. *)
Theorem handler_invariant (P : Platform)
    (evs : list (system_event_t * cloud_status_param)) :
  forall (this : DeviceKeyHelper) (w : World P),
    0 <= failureCount this ->
    failureCount this + Z.of_nat (length evs) <= 2147483647 ->
    (connected this = true -> failureCount this = 0) ->
    0 <= failureCount (value (run_events P this evs w))
      <= failureCount this + Z.of_nat (length evs)
    /\ (connected (value (run_events P this evs w)) = true ->
        failureCount (value (run_events P this evs w)) = 0).
Proof.
  induction evs as [|[event param] rest IH];
    intros this w Hpos Hmax Hzero.
  - cbn [run_events ret value length]. split; [lia|exact Hzero].
  - destruct (run_events_value P this event param rest w) as [-> _].
    cbn [length] in *. rewrite Nat2Z.inj_succ in *.
    assert (Hw : wrap_int (failureCount this + 1) = failureCount this + 1)
      by (apply wrap_int_small; lia).
    destruct (eventHandler_cases P this event param w)
      as [| |o Hv Hf He|Hc Hver Hlt|Hc Hver Hge|Hc Hver];
      cbn [value final]; try rewrite Hv; try rewrite Hw;
      match goal with
      | |- context [run_events P ?t rest ?w'] =>
          assert (H1 : 0 <= failureCount t)
            by (cbn [failureCount]; lia);
          assert (H2 : failureCount t + Z.of_nat (length rest)
                       <= 2147483647)
            by (cbn [failureCount]; lia);
          assert (H3 : connected t = true -> failureCount t = 0)
            by (cbn [connected failureCount];
                first [exact Hzero|intros _; reflexivity
                      |intros Hx; discriminate Hx]);
          destruct (IH t w' H1 H2 H3) as [Hrange Hconn];
          cbn [failureCount] in Hrange; split; [lia|exact Hconn]
      end.
Qed.

Lemma handler_invariant_witness :
  0 <= failureCount
         (value (run_events (slot_platform 0x00070000) (mkHelper false 0)
                   [Connecting; Disconnected; Connected; Disconnected]
                   (slot_world 0x00070000 None [])))
    <= 4.
Proof.
  apply (handler_invariant (slot_platform 0x00070000)
           [Connecting; Disconnected; Connected; Disconnected]
           (mkHelper false 0) (slot_world 0x00070000 None [])).
  - cbn. lia.
  - cbn. lia.
  - cbn. discriminate.
Defined.

Lemma check_write_events (P : Platform) (mode : CheckMode) (w : World P)
    (data : list Z) (offset len : nat) :
  In (EvDctWrite data offset len) (emitted (check P mode w)) ->
  mode = CHECKMODE_AUTOMATIC
  /\ emitted (check P mode w) = [restore_event P w; EvReset]
  \/ mode = CHECKMODE_AUTOMATIC_NO_RESTART
     /\ emitted (check P mode w) = [restore_event P w].
Proof.
  destruct (check_cases P mode w)
    as [o Hb Hv He Hdct Hk|Hb Hc Ha|Hb Hc Ha|Hb Hv Hm Hd|Hb Hv Hm Hd
        |Hb Hv Hm Hd|Hb Hv Hm Hd]; cbn [emitted]; try rewrite He;
    cbn [In]; intros Hin; auto; try tauto.
  destruct Hin as [Hin|[]]. discriminate.
Qed.

(** X13: the handler rewrites the key region only inside the recovery
    sequence: when an event makes it write the table, the event is a
    Disconnected event received while [connected] is clear, the write is
    preceded by the request to disconnect and followed by two requests to
    reset, the one of [check] and the one of the handler. *)
Theorem handler_restores_inside_recovery (P : Platform)
    (this : DeviceKeyHelper) (event : system_event_t)
    (param : cloud_status_param) (w : World P)
    (data : list Z) (offset len : nat) :
  In (EvDctWrite data offset len)
    (emitted (eventHandler P this event param w)) ->
  event = cloud_status
  /\ param = cloud_status_disconnected
  /\ connected this = false
  /\ emitted (eventHandler P this event param w)
     = [EvDisconnect; restore_event P w; EvReset; EvReset].
Proof.
  assert (Hrec : In (EvDctWrite data offset len) (recovery_events P w) ->
                 recovery_events P w
                 = [EvDisconnect; restore_event P w; EvReset; EvReset]).
  { unfold recovery_events. intros Hin.
    apply in_app_or in Hin. destruct Hin as [[Hin|[]]|Hin]; [discriminate|].
    apply in_app_or in Hin. destruct Hin as [Hin|[Hin|[]]]; [|discriminate].
    destruct (check_write_events P _ w _ _ _ Hin) as [[_ ->]|[Hm _]];
      [reflexivity|discriminate]. }
  destruct event as [|code]; [|intros []].
  destruct param as [| | |code]; try (intros []; fail).
  - unfold eventHandler, bind, ret. cbn [value final emitted].
    rewrite app_nil_r. intros Hin.
    destruct (check_write_events P _ w _ _ _ Hin) as [[Hm _]|[Hm _]];
      discriminate.
  - destruct (connected this) eqn:Hc;
      [unfold eventHandler; rewrite Hc; intros []|].
    destruct (eventHandler_cases P this cloud_status
                cloud_status_disconnected w)
      as [| |o Hv Hf He|Hc' Hver Hlt|Hc' Hver Hge|Hc' Hver];
      cbn [emitted]; try (intros []; fail).
    + rewrite He. intros Hin.
      destruct (check_write_events P _ w _ _ _ Hin) as [[Hm _]|[Hm _]];
        discriminate.
    + intros Hin. rewrite (Hrec Hin). repeat split.
    + intros Hin. rewrite (Hrec Hin). repeat split.
Qed.

Lemma handler_restores_inside_recovery_witness :
  emitted (eventHandler (slot_platform 0x00070000) (mkHelper false 2)
             cloud_status cloud_status_disconnected
             (slot_world 0x00070000 (Some record_5678) []))
  = [EvDisconnect; EvDctWrite [5; 6; 7; 8] 2 4; EvReset; EvReset].
Proof.
  apply (handler_restores_inside_recovery (slot_platform 0x00070000)
           (mkHelper false 2) cloud_status cloud_status_disconnected
           (slot_world 0x00070000 (Some record_5678) [])
           [5; 6; 7; 8] 2 4).
  right. left. reflexivity.
Defined.

(** X14: on a build with the diagnostic query, a Disconnected event
    received while [connected] is clear runs the recovery sequence exactly
    when the query succeeds with the value 26 or 10; whatever the answer,
    [connected] and [failureCount] keep their values. *)
Theorem disconnected_with_diag (P : Platform) (this : DeviceKeyHelper)
    (w : World P) :
  0x00080000 <= SYSTEM_VERSION P ->
  connected this = false ->
  value (eventHandler P this cloud_status cloud_status_disconnected w) = this
  /\ emitted (eventHandler P this cloud_status cloud_status_disconnected w)
     = (if fst (value (getSystemDiagValue P
                         (DIAG_ID_CLOUD_CONNECTION_ERROR_CODE P) w))
           && ((snd (value (getSystemDiagValue P
                              (DIAG_ID_CLOUD_CONNECTION_ERROR_CODE P) w))
                =? 26)
               || (snd (value (getSystemDiagValue P
                                 (DIAG_ID_CLOUD_CONNECTION_ERROR_CODE P) w))
                   =? 10))
        then recovery_events P w else []).
Proof.
  intros Hver Hc.
  rewrite (disconnected_with_diag_outcome P this w Hver Hc).
  destruct (_ && _); split; reflexivity.
Qed.

Lemma disconnected_with_diag_witness :
  emitted (eventHandler (slot_platform 0x00080000) (mkHelper false 0)
             cloud_status cloud_status_disconnected
             (diag_world 26 (Some record_5678)))
  = [EvDisconnect; EvDctWrite [5; 6; 7; 8] 2 4; EvReset; EvReset].
Proof.
  assert (H := disconnected_with_diag (slot_platform 0x00080000)
                 (mkHelper false 0) (diag_world 26 (Some record_5678))).
  destruct H as [_ H].
  - cbn. lia.
  - reflexivity.
  - rewrite H. reflexivity.
Defined.

(** X15: on a build with the diagnostic query the failure counter is
    dead: over every sequence of events [failureCount] is either what it
    was at the start or the zero a Connected event wrote. *)
Theorem diag_build_never_counts (P : Platform)
    (evs : list (system_event_t * cloud_status_param)) :
  forall (this : DeviceKeyHelper) (w : World P),
    0x00080000 <= SYSTEM_VERSION P ->
    failureCount (value (run_events P this evs w)) = failureCount this
    \/ failureCount (value (run_events P this evs w)) = 0.
Proof.
  induction evs as [|[event param] rest IH]; intros this w Hver.
  - left. reflexivity.
  - destruct (run_events_value P this event param rest w) as [-> _].
    destruct (eventHandler_cases P this event param w)
      as [| |o Hv Hf He|Hc Hver' Hlt|Hc Hver' Hge|Hc Hver'];
      cbn [value final]; try lia; try rewrite Hv;
      match goal with
      | |- context [run_events P ?t rest ?w'] =>
          destruct (IH t w' Hver) as [H|H]; rewrite H;
          cbn [failureCount]; auto
      end.
Qed.

Lemma diag_build_never_counts_witness :
  failureCount
    (value (run_events (slot_platform 0x00080000) (mkHelper false 0)
              [Connecting; Disconnected; Disconnected; Disconnected;
               Disconnected]
              (diag_world 3 (Some record_5678))))
  = 0.
Proof.
  assert (H := diag_build_never_counts (slot_platform 0x00080000)
                 [Connecting; Disconnected; Disconnected; Disconnected;
                  Disconnected]
                 (mkHelper false 0) (diag_world 3 (Some record_5678))).
  destruct H as [H|H].
  - cbn. lia.
  - exact H.
  - exact H.
Defined.

Lemma disconnections_cons (e : system_event_t * cloud_status_param)
    (rest : list (system_event_t * cloud_status_param)) :
  disconnections (e :: rest)
  = (if is_disconnected e then 1 else 0) + disconnections rest.
Proof.
  unfold disconnections. cbn [filter].
  destruct (is_disconnected e); cbn [length]; lia.
Qed.

(** X16: a Connecting event does not reset the count.  On a build without
    the diagnostic query, over any sequence made of Connecting and
    Disconnected events only, started with [connected] clear, the flag
    stays clear and [failureCount] grows by the number of Disconnected
    events, as long as the [int] does not pass [INT_MAX]. *)
Theorem failures_accumulate (P : Platform)
    (evs : list (system_event_t * cloud_status_param)) :
  forall (this : DeviceKeyHelper) (w : World P),
    SYSTEM_VERSION P < 0x00080000 ->
    connected this = false ->
    -2147483648 <= failureCount this ->
    failureCount this + disconnections evs <= 2147483647 ->
    Forall (fun e => e = Connecting \/ e = Disconnected) evs ->
    value (run_events P this evs w)
    = mkHelper false (failureCount this + disconnections evs).
Proof.
  induction evs as [|[event param] rest IH];
    intros this w Hver Hc Hmin Hmax Hall.
  - unfold disconnections. cbn. rewrite Z.add_0_r, <- Hc.
    destruct this; reflexivity.
  - destruct (run_events_value P this event param rest w) as [-> _].
    assert (Hrest : 0 <= disconnections rest)
      by (unfold disconnections; lia).
    rewrite disconnections_cons in *.
    inversion Hall as [|e l [He|He] Hrest']; subst;
      injection He as -> ->; cbn [is_disconnected] in *.
    + rewrite connecting_outcome. cbn [value final].
      rewrite IH by (cbn [failureCount]; assumption || reflexivity || lia).
      reflexivity.
    + destruct (disconnected_counts P this w Hver Hc) as (Hv & _ & _).
      rewrite Hv, wrap_int_small by lia.
      rewrite IH by (cbn [failureCount]; assumption || reflexivity || lia).
      cbn [failureCount]. f_equal. lia.
Qed.

Lemma failures_accumulate_witness :
  value (run_events (slot_platform 0x00070000) (mkHelper false 0)
           [Connecting; Disconnected; Connecting; Disconnected;
            Connecting; Disconnected; Connecting; Disconnected]
           (slot_world 0x00070000 None []))
  = mkHelper false 4.
Proof.
  assert (H := failures_accumulate (slot_platform 0x00070000)
                 [Connecting; Disconnected; Connecting; Disconnected;
                  Connecting; Disconnected; Connecting; Disconnected]
                 (mkHelper false 0) (slot_world 0x00070000 None [])).
  rewrite H.
  - reflexivity.
  - cbn. lia.
  - reflexivity.
  - cbn. lia.
  - cbn. lia.
  - repeat (apply Forall_cons;
            [first [left; reflexivity|right; reflexivity]|]).
    apply Forall_nil.
Defined.

(** ** The diagnostic query *)

Lemma size_t_add_small (a b : nat) :
  Z.of_nat a + Z.of_nat b < 4294967296 -> size_t_add a b = (a + b)%nat.
Proof.
  intros H. unfold size_t_add. rewrite Z.mod_small by lia.
  rewrite <- Nat2Z.inj_add. apply Nat2Z.id.
Qed.

Lemma appender_keeps_bounds (d : DiagData) (chunk : list Z) :
  Z.of_nat (length chunk) < 4294967286 ->
  length (diag_b d) = 10%nat ->
  (diag_offset d <= 10)%nat ->
  length (diag_b (appender d chunk)) = 10%nat
  /\ (diag_offset d <= diag_offset (appender d chunk) <= 10)%nat.
Proof.
  intros Hsize Hlen Hoff. unfold appender.
  rewrite size_t_add_small by lia.
  destruct (Nat.leb_spec (diag_offset d + length chunk) 10) as [Hfit|Hbig];
    cbn [diag_b diag_offset]; [|lia].
  rewrite !length_app, length_firstn, length_skipn. lia.
Qed.

(** X17: the appender never runs over the 10 bytes of the union, as long
    as no chunk is so large that [offset + size] wraps in [size_t]:
    whatever chunks of fewer than 2^32 - 10 bytes the platform hands over,
    in any number, the buffer keeps its 10 bytes and [offset] only grows
    and never passes 10. *)
Theorem appender_bounds (chunks : list (list Z)) (d : DiagData) :
  Forall (fun chunk => Z.of_nat (length chunk) < 4294967286) chunks ->
  length (diag_b d) = 10%nat ->
  (diag_offset d <= 10)%nat ->
  length (diag_b (fold_left appender chunks d)) = 10%nat
  /\ (diag_offset d <= diag_offset (fold_left appender chunks d) <= 10)%nat.
Proof.
  intros Hall. revert d.
  induction Hall as [|chunk chunks Hsize _ IH]; intros d Hlen Hoff;
    [cbn; lia|].
  cbn [fold_left].
  destruct (appender_keeps_bounds d chunk Hsize Hlen Hoff) as (Hlen' & Hoff').
  destruct (IH (appender d chunk) Hlen' ltac:(lia)) as (H1 & H2).
  split; [exact H1|lia].
Qed.

Lemma appender_bounds_witness :
  length (diag_b (fold_left appender
                    [[1; 2; 3]; [1; 2; 3; 4; 5; 6; 7; 8]; [4; 5]]
                    diag_init)) = 10%nat
  /\ Nat.le 0 (diag_offset
                 (fold_left appender
                    [[1; 2; 3]; [1; 2; 3; 4; 5; 6; 7; 8]; [4; 5]]
                    diag_init))
  /\ Nat.le (diag_offset
               (fold_left appender
                  [[1; 2; 3]; [1; 2; 3; 4; 5; 6; 7; 8]; [4; 5]]
                  diag_init)) 10.
Proof.
  apply (appender_bounds [[1; 2; 3]; [1; 2; 3; 4; 5; 6; 7; 8]; [4; 5]]
           diag_init).
  - repeat (apply Forall_cons; [cbn; lia|]). apply Forall_nil.
  - reflexivity.
  - cbn. lia.
Defined.

Lemma appender_fits (d : DiagData) (chunk : list Z) :
  length (diag_b d) = 10%nat ->
  (diag_offset d + length chunk <= 10)%nat ->
  firstn (diag_offset d + length chunk) (diag_b (appender d chunk))
  = firstn (diag_offset d) (diag_b d) ++ chunk
  /\ diag_offset (appender d chunk) = (diag_offset d + length chunk)%nat
  /\ length (diag_b (appender d chunk)) = 10%nat.
Proof.
  intros Hlen Hfit. unfold appender.
  rewrite size_t_add_small by lia.
  destruct (Nat.leb_spec (diag_offset d + length chunk) 10) as [_|Hbig];
    [|lia].
  cbn [diag_b diag_offset].
  assert (HA : length (firstn (diag_offset d) (diag_b d)) = diag_offset d)
    by (rewrite length_firstn; lia).
  repeat split.
  - rewrite app_assoc, firstn_app, length_app, HA, Nat.sub_diag.
    cbn [firstn]. rewrite app_nil_r. apply firstn_all2.
    rewrite length_app, HA. lia.
  - rewrite !length_app, HA, length_skipn. lia.
Qed.

Lemma fold_appender_fits (chunks : list (list Z)) :
  forall d : DiagData,
    length (diag_b d) = 10%nat ->
    (diag_offset d + length (concat chunks) <= 10)%nat ->
    firstn (diag_offset d + length (concat chunks))
      (diag_b (fold_left appender chunks d))
    = firstn (diag_offset d) (diag_b d) ++ concat chunks
    /\ diag_offset (fold_left appender chunks d)
       = (diag_offset d + length (concat chunks))%nat
    /\ length (diag_b (fold_left appender chunks d)) = 10%nat.
Proof.
  induction chunks as [|chunk chunks IH]; intros d Hlen Hfit.
  - cbn. rewrite Nat.add_0_r, app_nil_r. repeat split. exact Hlen.
  - cbn [fold_left concat] in *. rewrite length_app in Hfit.
    destruct (appender_fits d chunk Hlen ltac:(lia)) as (Hb & Ho & Hl).
    destruct (IH (appender d chunk) Hl ltac:(lia)) as (IHb & IHo & IHl).
    rewrite Ho in IHb, IHo. rewrite Hb in IHb.
    rewrite length_app, Nat.add_assoc, app_assoc. repeat split; assumption.
Qed.

Lemma int32_bytes_round_trip (v : Z) :
  -2147483648 <= v < 2147483648 ->
  int32_of_bytes (int32_to_bytes v) = v.
Proof.
  intros Hv. unfold int32_of_bytes, int32_to_bytes. cbn [nth].
  set (u := v mod 4294967296).
  assert (Hu : 0 <= u < 4294967296) by (apply Z.mod_pos_bound; lia).
  assert (Hsum : u mod 256 + 256 * ((u / 256) mod 256)
                 + 65536 * ((u / 65536) mod 256) + 16777216 * (u / 16777216)
                 = u).
  { clearbody u. Z.div_mod_to_equations. lia. }
  rewrite Hsum.
  destruct (Z.ltb_spec u 2147483648) as [Hlt|Hge]; subst u;
    Z.div_mod_to_equations; lia.
Qed.

(** X18: the decoding of the diagnostic answer.  On a build with the
    query, when the chunks the platform hands over make up 10 bytes, six
    of header and the four of a 32-bit value with the least significant
    byte first, however they are cut into chunks, [getSystemDiagValue]
    returns [true] with that value, and changes nothing. *)
Theorem getSystemDiagValue_decodes (P : Platform) (id : Z) (w : World P)
    (header : list Z) (v : Z) :
  0x00080000 <= SYSTEM_VERSION P ->
  concat (diag P w id) = header ++ int32_to_bytes v ->
  length header = 6%nat ->
  -2147483648 <= v < 2147483648 ->
  value (getSystemDiagValue P id w) = (true, v)
  /\ final (getSystemDiagValue P id w) = w
  /\ emitted (getSystemDiagValue P id w) = [].
Proof.
  intros Hver Hcat Hhdr Hv. unfold getSystemDiagValue.
  rewrite (version_geb_true P Hver). cbn [value final emitted].
  repeat split.
  assert (Hten : length (concat (diag P w id)) = 10%nat)
    by (rewrite Hcat, length_app, Hhdr; reflexivity).
  destruct (fold_appender_fits (diag P w id) diag_init eq_refl)
    as (Hb & Ho & Hlen); [cbn [diag_offset diag_init]; lia|].
  fold diag_init. cbn [diag_offset diag_init Nat.add] in Hb, Ho.
  rewrite Hten in Hb, Ho. rewrite <- Hlen, firstn_all in Hb.
  cbn [firstn app] in Hb. rewrite Ho, Hb, Hcat.
  rewrite skipn_app, Hhdr. cbn [Nat.sub].
  rewrite skipn_all2 by lia. cbn [app skipn].
  change (firstn 4 (int32_to_bytes v)) with (int32_to_bytes v).
  rewrite (int32_bytes_round_trip v Hv). reflexivity.
Qed.

Lemma getSystemDiagValue_decodes_witness :
  value (getSystemDiagValue (slot_platform 0x00080000) 7
           (mkWorld (slot_platform 0x00080000) table_1234 None []
              (fun _ => [[2; 0; 4]; [0; 7; 0; 253]; [255; 255; 255]])))
  = (true, -3).
Proof.
  assert (H := getSystemDiagValue_decodes (slot_platform 0x00080000) 7
                 (mkWorld (slot_platform 0x00080000) table_1234 None []
                    (fun _ => [[2; 0; 4]; [0; 7; 0; 253]; [255; 255; 255]]))
                 [2; 0; 4; 0; 7; 0] (-3)).
  destruct H as (H & _).
  - cbn. lia.
  - reflexivity.
  - reflexivity.
  - lia.
  - exact H.
Defined.

(** X19: an answer of fewer than 10 bytes is refused: on a build with the
    query, when the chunks handed over make up less than 10 bytes,
    [getSystemDiagValue] returns [false], and a Disconnected event then
    does nothing at all. *)
Theorem getSystemDiagValue_short_answer (P : Platform)
    (this : DeviceKeyHelper) (w : World P) :
  0x00080000 <= SYSTEM_VERSION P ->
  (length (concat (diag P w (DIAG_ID_CLOUD_CONNECTION_ERROR_CODE P))) < 10)%nat ->
  fst (value (getSystemDiagValue P
                (DIAG_ID_CLOUD_CONNECTION_ERROR_CODE P) w)) = false
  /\ eventHandler P this cloud_status cloud_status_disconnected w
     = mkOutcome this w [].
Proof.
  intros Hver Hshort.
  assert (Hq : fst (value (getSystemDiagValue P
                             (DIAG_ID_CLOUD_CONNECTION_ERROR_CODE P) w))
               = false).
  { unfold getSystemDiagValue. rewrite (version_geb_true P Hver).
    cbn [value fst]. fold diag_init.
    destruct (fold_appender_fits
                (diag P w (DIAG_ID_CLOUD_CONNECTION_ERROR_CODE P))
                diag_init eq_refl) as (_ & Ho & _);
      [cbn [diag_offset diag_init]; lia|].
    rewrite Ho. cbn [diag_offset diag_init Nat.add].
    apply Nat.eqb_neq. lia. }
  split; [exact Hq|].
  destruct (connected this) eqn:Hc;
    [unfold eventHandler; rewrite Hc; reflexivity|].
  rewrite (disconnected_with_diag_outcome P this w Hver Hc), Hq.
  reflexivity.
Qed.

Lemma getSystemDiagValue_short_answer_witness :
  eventHandler (slot_platform 0x00080000) (mkHelper false 0)
    cloud_status cloud_status_disconnected
    (mkWorld (slot_platform 0x00080000) table_1234 (Some record_5678) []
       (fun _ => [[2; 0]; [4; 0]; [26; 0; 0; 0]]))
  = mkOutcome (mkHelper false 0)
      (mkWorld (slot_platform 0x00080000) table_1234 (Some record_5678) []
         (fun _ => [[2; 0]; [4; 0]; [26; 0; 0; 0]]))
      [].
Proof.
  apply (getSystemDiagValue_short_answer (slot_platform 0x00080000)
           (mkHelper false 0)
           (mkWorld (slot_platform 0x00080000) table_1234
              (Some record_5678) []
              (fun _ => [[2; 0]; [4; 0]; [26; 0; 0; 0]]))).
  - cbn. lia.
  - cbn. lia.
Defined.

(** ** The table over a run of events *)

Lemma loaded_buffer_shape (P : Platform) (good : Backing P -> Prop)
    (w : World P) :
  shaped_store P good -> good (backing P w) ->
  wf_saved P (snd (loaded_buffer P w)).
Proof.
  intros [Hload _] Hg. apply Hload; [exact Hg|].
  unfold wf_saved. cbn. apply repeat_length.
Qed.

Lemma check_keeps_store (P : Platform) (good : Backing P -> Prop)
    (mode : CheckMode) (w : World P) :
  shaped_store P good -> wf_world P w -> good (backing P w) ->
  good (backing P (final (check P mode w))).
Proof.
  intros Hshape Hw Hg.
  assert (Hr := loaded_buffer_shape P good w Hshape Hg).
  destruct (check_cases P mode w)
    as [o Hb Hv He Hdct Hk|Hb Hc Ha|Hb Hc Ha|Hb Hv Hm Hd|Hb Hv Hm Hd
        |Hb Hv Hm Hd|Hb Hv Hm Hd]; cbn [final]; try exact Hg.
  - rewrite Hk. exact Hg.
  - unfold saved_world. cbn [backing].
    change (fresh_record P (with_buffers w)) with (fresh_record P w).
    destruct Hshape as [_ Hsave]. apply Hsave; [exact Hg|].
    unfold wf_saved.
    destruct (fresh_record_fields P w Hw Hr) as (_ & _ & _ & ->).
    apply (live_region_length P w Hw).
Qed.

Lemma eventHandler_keeps_rest (P : Platform) (good : Backing P -> Prop)
    (this : DeviceKeyHelper) (event : system_event_t)
    (param : cloud_status_param) (w : World P) :
  shaped_store P good ->
  wf_world P w ->
  good (backing P w) ->
  length (dct P (final (eventHandler P this event param w)))
  = length (dct P w)
  /\ good (backing P (final (eventHandler P this event param w)))
  /\ (forall i : nat,
         (i < DEVICE_KEYS_HELPER_OFFSET P
          \/ DEVICE_KEYS_HELPER_OFFSET P + DEVICE_KEYS_HELPER_SIZE P <= i)%nat ->
         nth i (dct P (final (eventHandler P this event param w))) 0
         = nth i (dct P w) 0).
Proof.
  intros Hshape Hw Hg.
  assert (Hr := loaded_buffer_shape P good w Hshape Hg).
  assert (Hcheck :
            forall mode,
              length (dct P (final (check P mode w))) = length (dct P w)
              /\ good (backing P (final (check P mode w)))
              /\ (forall i : nat,
                     (i < DEVICE_KEYS_HELPER_OFFSET P
                      \/ DEVICE_KEYS_HELPER_OFFSET P
                         + DEVICE_KEYS_HELPER_SIZE P <= i)%nat ->
                     nth i (dct P (final (check P mode w))) 0
                     = nth i (dct P w) 0)).
  { intros mode. destruct (check_keeps_rest P mode w Hw Hr) as [H1 H2].
    repeat split; [exact H1| |exact H2].
    apply check_keeps_store; assumption. }
  destruct (eventHandler_cases P this event param w)
    as [| |o Hv Hf He|Hc Hver Hlt|Hc Hver Hge|Hc Hver];
    cbn [final]; try rewrite Hf;
    try (repeat split; (reflexivity || assumption)); apply Hcheck.
Qed.

(** X20: over every sequence of events, on every build, the handler
    touches nothing of the configuration table but the key region: the
    table keeps its length and every byte outside the region. *)
Theorem run_events_frame (P : Platform) (good : Backing P -> Prop)
    (evs : list (system_event_t * cloud_status_param)) :
  forall (this : DeviceKeyHelper) (w : World P) (i : nat),
    shaped_store P good ->
    wf_world P w ->
    good (backing P w) ->
    (i < DEVICE_KEYS_HELPER_OFFSET P
     \/ DEVICE_KEYS_HELPER_OFFSET P + DEVICE_KEYS_HELPER_SIZE P <= i)%nat ->
    length (dct P (final (run_events P this evs w))) = length (dct P w)
    /\ nth i (dct P (final (run_events P this evs w))) 0
       = nth i (dct P w) 0.
Proof.
  induction evs as [|[event param] rest IH]; intros this w i Hshape Hw Hg Hi.
  - split; reflexivity.
  - destruct (run_events_value P this event param rest w) as [_ ->].
    destruct (eventHandler_keeps_rest P good this event param w Hshape Hw Hg)
      as (Hlen & Hg' & Hnth).
    assert (Hw' : wf_world P (final (eventHandler P this event param w)))
      by (unfold wf_world in *; rewrite Hlen; exact Hw).
    destruct (IH (value (eventHandler P this event param w))
                (final (eventHandler P this event param w)) i
                Hshape Hw' Hg' Hi) as [IHlen IHnth].
    split; [rewrite IHlen; exact Hlen|rewrite IHnth; exact (Hnth i Hi)].
Qed.

Lemma run_events_frame_witness :
  nth 0
    (dct (slot_platform 0x00070000)
       (final (run_events (slot_platform 0x00070000) (mkHelper false 0)
                 [Connecting; Disconnected; Disconnected; Disconnected]
                 (slot_world 0x00070000 (Some record_5678) [])))) 0
  = 9.
Proof.
  assert (H := run_events_frame (slot_platform 0x00070000)
                 (slot_good 0x00070000)
                 [Connecting; Disconnected; Disconnected; Disconnected]
                 (mkHelper false 0)
                 (slot_world 0x00070000 (Some record_5678) []) 0%nat).
  destruct H as [_ H].
  - split.
    + intros [r|] buf Hg Hbuf; [exact Hg|exact Hbuf].
    + intros b r _ Hr. exact Hr.
  - unfold wf_world. cbn. lia.
  - reflexivity.
  - left. cbn. lia.
  - rewrite H. reflexivity.
Defined.

(** ** The counter at the end of its range *)

Example count_wraps_at_int_max :
  eventHandler (slot_platform 0x00070000) (mkHelper false 2147483647)
    cloud_status cloud_status_disconnected
    (slot_world 0x00070000 (Some record_5678) [])
  = mkOutcome (mkHelper false (-2147483648))
      (slot_world 0x00070000 (Some record_5678) []) [].
Proof. reflexivity. Qed.
